(** * HealthInspectFHE: the decrypt-request protocol of the contract

    A shallow embedding of the Solidity contract [HealthInspectFHE]
    (storage, the seven state-changing entry points and the two views)
    and the properties of its request/callback protocol.

    Unsigned integers are [N]; checked arithmetic of Solidity 0.8 is
    written out ([checked_add], [checked_sub]).  A [mapping] is a [gmap]
    read with the zero value of its value type as default ([sload]), as a
    Solidity mapping has no notion of an absent key.  The FHE library and
    the ABI decoder are imported by the contract, not part of it: they
    are the interface [FHEVM], over which every definition is generic. *)

From Stdlib Require Import NArith String Strings.Byte Sorting.Sorted.
From stdpp Require Import gmap list.

Local Open Scope N_scope.

(** ** Value types *)

Definition MAX_UINT32 : N := 2 ^ 32 - 1.
Definition MAX_UINT256 : N := 2 ^ 256 - 1.

(** [type euint32 is bytes32]: an encrypted value is a 32-byte handle. *)
Definition euint32 : Type := N.
Definition bytes : Type := list byte.

(** [uint32(x)] on a [uint256]. *)
Definition to_uint32 (x : N) : N := x mod 2 ^ 32.

(** [FHE.toBytes32] unwraps the handle. *)
Definition toBytes32 (h : euint32) : N := h.

Record InspectionReport := {
  encryptedRestaurantId : euint32;
  encryptedHygieneScore : euint32;
  encryptedFoodSafetyScore : euint32;
  encryptedFacilityScore : euint32;
  encryptedLocationCode : euint32;
  timestamp : N
}.

Record RiskAnalysis := {
  encryptedRiskScore : euint32;
  encryptedPriorityLevel : euint32;
  isRevealed : bool
}.

Record AreaStats := {
  encryptedAvgHygiene : euint32;
  encryptedRiskCount : euint32
}.

(** The value every storage slot holds before it is written. *)
Definition zeroReport : InspectionReport := Build_InspectionReport 0 0 0 0 0 0.
Definition zeroAnalysis : RiskAnalysis := Build_RiskAnalysis 0 0 false.
Definition zeroAreaStats : AreaStats := Build_AreaStats 0 0.

Inductive Event :=
| ReportSubmitted (reportId : N) (time : N)
| AnalysisRequested (reportId : N)
| RiskIdentified (analysisId : N)
| AnalysisRevealed (analysisId : N).

(** The callback a decryption request names ([this.f.selector]). *)
Inductive Selector :=
| sel_calculateRiskScore
| sel_decryptAnalysis
| sel_decryptAreaStats.

(** One call of [FHE.requestDecryption] as the oracle sees it. *)
Record DecryptionRequest := {
  req_id : N;
  req_ciphertexts : list N;
  req_callback : Selector
}.

(** ** Storage *)

(** The contract's storage, followed by two logs that are not storage:
    the events emitted and the decryption requests sent so far. *)
Record State := {
  reportCount : N;
  analysisCount : N;
  inspectionReports : gmap N InspectionReport;
  riskAnalyses : gmap N RiskAnalysis;
  areaStatistics : gmap N AreaStats;
  requestToReportId : gmap N N;
  requestToAnalysisId : gmap N N;
  emitted : list Event;
  requested : list DecryptionRequest
}.

Definition initial : State :=
  {| reportCount := 0; analysisCount := 0;
     inspectionReports := ∅; riskAnalyses := ∅; areaStatistics := ∅;
     requestToReportId := ∅; requestToAnalysisId := ∅;
     emitted := []; requested := [] |}.

(** Reading a mapping: the zero value [d] where nothing was written. *)
Definition sload {V : Type} (d : V) (m : gmap N V) (k : N) : V :=
  default d (m !! k).

Definition reportAt (st : State) (id : N) : InspectionReport :=
  sload zeroReport (inspectionReports st) id.
Definition analysisAt (st : State) (id : N) : RiskAnalysis :=
  sload zeroAnalysis (riskAnalyses st) id.
Definition areaAt (st : State) (code : N) : AreaStats :=
  sload zeroAreaStats (areaStatistics st) code.
Definition pendingReport (st : State) (requestId : N) : N :=
  sload 0 (requestToReportId st) requestId.
Definition pendingAnalysis (st : State) (requestId : N) : N :=
  sload 0 (requestToAnalysisId st) requestId.

Definition set_reportCount (v : N) (st : State) : State :=
  {| reportCount := v; analysisCount := analysisCount st;
     inspectionReports := inspectionReports st; riskAnalyses := riskAnalyses st;
     areaStatistics := areaStatistics st;
     requestToReportId := requestToReportId st;
     requestToAnalysisId := requestToAnalysisId st;
     emitted := emitted st; requested := requested st |}.

Definition set_analysisCount (v : N) (st : State) : State :=
  {| reportCount := reportCount st; analysisCount := v;
     inspectionReports := inspectionReports st; riskAnalyses := riskAnalyses st;
     areaStatistics := areaStatistics st;
     requestToReportId := requestToReportId st;
     requestToAnalysisId := requestToAnalysisId st;
     emitted := emitted st; requested := requested st |}.

Definition set_inspectionReport (id : N) (v : InspectionReport) (st : State) : State :=
  {| reportCount := reportCount st; analysisCount := analysisCount st;
     inspectionReports := <[id := v]> (inspectionReports st);
     riskAnalyses := riskAnalyses st;
     areaStatistics := areaStatistics st;
     requestToReportId := requestToReportId st;
     requestToAnalysisId := requestToAnalysisId st;
     emitted := emitted st; requested := requested st |}.

Definition set_riskAnalysis (id : N) (v : RiskAnalysis) (st : State) : State :=
  {| reportCount := reportCount st; analysisCount := analysisCount st;
     inspectionReports := inspectionReports st;
     riskAnalyses := <[id := v]> (riskAnalyses st);
     areaStatistics := areaStatistics st;
     requestToReportId := requestToReportId st;
     requestToAnalysisId := requestToAnalysisId st;
     emitted := emitted st; requested := requested st |}.

Definition set_areaStats (code : N) (v : AreaStats) (st : State) : State :=
  {| reportCount := reportCount st; analysisCount := analysisCount st;
     inspectionReports := inspectionReports st; riskAnalyses := riskAnalyses st;
     areaStatistics := <[code := v]> (areaStatistics st);
     requestToReportId := requestToReportId st;
     requestToAnalysisId := requestToAnalysisId st;
     emitted := emitted st; requested := requested st |}.

Definition set_requestToReportId (requestId v : N) (st : State) : State :=
  {| reportCount := reportCount st; analysisCount := analysisCount st;
     inspectionReports := inspectionReports st; riskAnalyses := riskAnalyses st;
     areaStatistics := areaStatistics st;
     requestToReportId := <[requestId := v]> (requestToReportId st);
     requestToAnalysisId := requestToAnalysisId st;
     emitted := emitted st; requested := requested st |}.

Definition set_requestToAnalysisId (requestId v : N) (st : State) : State :=
  {| reportCount := reportCount st; analysisCount := analysisCount st;
     inspectionReports := inspectionReports st; riskAnalyses := riskAnalyses st;
     areaStatistics := areaStatistics st;
     requestToReportId := requestToReportId st;
     requestToAnalysisId := <[requestId := v]> (requestToAnalysisId st);
     emitted := emitted st; requested := requested st |}.

Definition log_event (e : Event) (st : State) : State :=
  {| reportCount := reportCount st; analysisCount := analysisCount st;
     inspectionReports := inspectionReports st; riskAnalyses := riskAnalyses st;
     areaStatistics := areaStatistics st;
     requestToReportId := requestToReportId st;
     requestToAnalysisId := requestToAnalysisId st;
     emitted := emitted st ++ [e]; requested := requested st |}.

Definition log_request (r : DecryptionRequest) (st : State) : State :=
  {| reportCount := reportCount st; analysisCount := analysisCount st;
     inspectionReports := inspectionReports st; riskAnalyses := riskAnalyses st;
     areaStatistics := areaStatistics st;
     requestToReportId := requestToReportId st;
     requestToAnalysisId := requestToAnalysisId st;
     emitted := emitted st; requested := requested st ++ [r] |}.

(** ** Execution of one call *)

Inductive Failure :=
| RequireFailed (reason : string)   (* require(cond, reason) *)
| SignaturesRejected                (* FHE.checkSignatures reverts *)
| DecodeFailed                      (* abi.decode reverts without data *)
| Panic (code : N).                 (* 0x11 arithmetic, 0x32 array index,
                                       0x41 allocation *)

(** A call either returns or stops at a failure.  [Reverted] keeps the
    state execution had reached when it stopped, so that "nothing was
    written before the failure" is a property to prove and not a
    convention of the model; [exec] below is what the chain keeps. *)
Inductive Outcome (A : Type) : Type :=
| Returned (a : A) (st : State)
| Reverted (e : Failure) (st : State).
Arguments Returned {A} a st.
Arguments Reverted {A} e st.

Definition Tx (A : Type) : Type := State → Outcome A.

Definition tx_ret {A} (a : A) : Tx A := λ st, Returned a st.
Definition tx_bind {A B} (m : Tx A) (f : A → Tx B) : Tx B :=
  λ st, match m st with
        | Returned a st' => f a st'
        | Reverted e st' => Reverted e st'
        end.

Global Instance Tx_ret : MRet Tx := @tx_ret.
Global Instance Tx_bind : MBind Tx := λ A B f m, tx_bind m f.

Definition revert {A} (e : Failure) : Tx A := λ st, Reverted e st.
Definition read {A} (f : State → A) : Tx A := λ st, Returned (f st) st.
Definition write (f : State → State) : Tx unit := λ st, Returned tt (f st).
Definition require (cond : bool) (reason : string) : Tx unit :=
  if cond then tx_ret tt else revert (RequireFailed reason).
Definition emit (e : Event) : Tx unit := write (log_event e).
Definition unwrap {A} (e : Failure) (o : option A) : Tx A :=
  match o with Some a => tx_ret a | None => revert e end.

(** Checked arithmetic of Solidity 0.8 on a type with maximum [max]. *)
Definition checked_add (max a b : N) : option N :=
  if a + b <=? max then Some (a + b) else None.
Definition checked_sub (a b : N) : option N :=
  if b <=? a then Some (a - b) else None.

Definition ARITHMETIC : Failure := Panic 17.   (* Panic(0x11) *)
Definition OUT_OF_BOUNDS : Failure := Panic 50. (* Panic(0x32) *)
Definition ALLOCATION : Failure := Panic 65.    (* Panic(0x41) *)

(** [arr[i]] on a memory array. *)
Definition index (arr : list N) (i : nat) : Tx N := unwrap OUT_OF_BOUNDS (arr !! i).

(** ** What the contract imports *)

(** [FHE.asEuint32], [FHE.add] and [FHE.checkSignatures] of the FHE
    library, and [abi.decode(_, (uint32[]))] of the compiler.
    [checkSignatures] answers [false] where the library reverts.
    [abi.decode] fails in two ways: it reverts without data on a
    malformed encoding, and with [Panic(0x41)] on a declared length too
    large to allocate; for a payload that does not decode
    [abi_decode_panics] tells which. *)
Class FHEVM := {
  asEuint32 : N → euint32;
  FHE_add : euint32 → euint32 → euint32;
  checkSignatures : N → bytes → bytes → bool;
  abi_decode : bytes → option (list N);
  abi_decode_panics : bytes → bool
}.

(** ** The contract *)

Section Contract.
Context {fhe : FHEVM}.

(** [FHE.checkSignatures(requestId, cleartexts, proof)]. *)
Definition FHE_checkSignatures (requestId : N) (cleartexts proof : bytes) : Tx unit :=
  if checkSignatures requestId cleartexts proof then mret tt
  else revert SignaturesRejected.

(** [FHE.requestDecryption(ciphertexts, selector)].  The identifier is
    the oracle's to choose: [reqId] is what it answers for this call. *)
Definition FHE_requestDecryption (reqId : N) (ciphertexts : list N)
    (callback : Selector) : Tx N :=
  write (log_request {| req_id := reqId; req_ciphertexts := ciphertexts;
                        req_callback := callback |});;
  mret reqId.

(** [abi.decode(cleartexts, (uint32[]))]. *)
Definition decode_uint32_array (cleartexts : bytes) : Tx (list N) :=
  match abi_decode cleartexts with
  | Some values => mret values
  | None => revert (if abi_decode_panics cleartexts then ALLOCATION else DecodeFailed)
  end.

(** [x++] on a [uint256] counter; the result is the new value. *)
Definition increment (get : State → N) (set : N → State → State) : Tx N :=
  n ← read get;
  n' ← unwrap ARITHMETIC (checked_add MAX_UINT256 n 1);
  write (set n');;
  mret n'.

Definition submitInspectionReport
    (restaurantId hygieneScore foodSafetyScore facilityScore locationCode : euint32)
    (block_timestamp : N) : Tx unit :=
  increment reportCount set_reportCount;;
  write (λ st, set_inspectionReport (reportCount st)
     {| encryptedRestaurantId := restaurantId;
        encryptedHygieneScore := hygieneScore;
        encryptedFoodSafetyScore := foodSafetyScore;
        encryptedFacilityScore := facilityScore;
        encryptedLocationCode := locationCode;
        timestamp := block_timestamp |} st);;
  n ← read reportCount;
  emit (ReportSubmitted n block_timestamp).

Definition requestRiskAnalysis (reportId : N) (reqId : N) : Tx unit :=
  n ← read reportCount;
  require (reportId <=? n) "Invalid report ID";;
  r ← read (λ st, reportAt st reportId);
  let ciphertexts :=
    [ toBytes32 (encryptedHygieneScore r);
      toBytes32 (encryptedFoodSafetyScore r);
      toBytes32 (encryptedFacilityScore r);
      toBytes32 (encryptedLocationCode r) ] in
  reqId ← FHE_requestDecryption reqId ciphertexts sel_calculateRiskScore;
  write (set_requestToReportId reqId reportId);;
  emit (AnalysisRequested reportId).

(** [(100 - hygieneScore) + (100 - foodSafetyScore) + (100 - facilityScore)]
    in checked [uint32] arithmetic; [None] is [Panic(0x11)]. *)
Definition riskScore (hygieneScore foodSafetyScore facilityScore : N) : option N :=
  a ← checked_sub 100 hygieneScore;
  b ← checked_sub 100 foodSafetyScore;
  ab ← checked_add MAX_UINT32 a b;
  c ← checked_sub 100 facilityScore;
  checked_add MAX_UINT32 ab c.

(** [riskScore > 150 ? 3 : riskScore > 100 ? 2 : 1]. *)
Definition priorityLevel (riskScore : N) : N :=
  if 150 <? riskScore then 3 else if 100 <? riskScore then 2 else 1.

Definition calculateRiskScore (requestId : N) (cleartexts proof : bytes) : Tx unit :=
  reportId ← read (λ st, pendingReport st requestId);
  require (negb (reportId =? 0)) "Invalid request";;
  FHE_checkSignatures requestId cleartexts proof;;
  scores ← decode_uint32_array cleartexts;
  hygieneScore ← index scores 0;
  foodSafetyScore ← index scores 1;
  facilityScore ← index scores 2;
  locationCode ← index scores 3;
  riskScore ← unwrap ARITHMETIC (riskScore hygieneScore foodSafetyScore facilityScore);
  let priorityLevel := priorityLevel riskScore in
  increment analysisCount set_analysisCount;;
  write (λ st, set_riskAnalysis (analysisCount st)
     {| encryptedRiskScore := asEuint32 riskScore;
        encryptedPriorityLevel := asEuint32 priorityLevel;
        isRevealed := false |} st);;
  (* Update area statistics *)
  area ← read (λ st, areaAt st locationCode);
  (if encryptedAvgHygiene area =? asEuint32 0
   then write (set_areaStats locationCode
          {| encryptedAvgHygiene := asEuint32 0;
             encryptedRiskCount := asEuint32 0 |})
   else mret tt);;
  area ← read (λ st, areaAt st locationCode);
  write (set_areaStats locationCode
     {| encryptedAvgHygiene :=
          FHE_add (encryptedAvgHygiene area) (asEuint32 hygieneScore);
        encryptedRiskCount := encryptedRiskCount area |});;
  (if 100 <? riskScore
   then area ← read (λ st, areaAt st locationCode);
        write (set_areaStats locationCode
          {| encryptedAvgHygiene := encryptedAvgHygiene area;
             encryptedRiskCount :=
               FHE_add (encryptedRiskCount area) (asEuint32 1) |})
   else mret tt);;
  n ← read analysisCount;
  emit (RiskIdentified n).

Definition requestAnalysisDecryption (analysisId : N) (reqId : N) : Tx unit :=
  n ← read analysisCount;
  require (analysisId <=? n) "Invalid analysis ID";;
  a ← read (λ st, analysisAt st analysisId);
  require (negb (isRevealed a)) "Already revealed";;
  let ciphertexts :=
    [ toBytes32 (encryptedRiskScore a);
      toBytes32 (encryptedPriorityLevel a) ] in
  reqId ← FHE_requestDecryption reqId ciphertexts sel_decryptAnalysis;
  write (set_requestToAnalysisId reqId analysisId).

Definition decryptAnalysis (requestId : N) (cleartexts proof : bytes) : Tx unit :=
  analysisId ← read (λ st, pendingAnalysis st requestId);
  require (negb (analysisId =? 0)) "Invalid request";;
  FHE_checkSignatures requestId cleartexts proof;;
  results ← decode_uint32_array cleartexts;
  write (λ st, set_riskAnalysis analysisId
     {| encryptedRiskScore := encryptedRiskScore (analysisAt st analysisId);
        encryptedPriorityLevel := encryptedPriorityLevel (analysisAt st analysisId);
        isRevealed := true |} st);;
  emit (AnalysisRevealed analysisId).

Definition requestAreaStats (locationCode : N) (reqId : N) : Tx unit :=
  area ← read (λ st, areaAt st locationCode);
  require (negb (encryptedAvgHygiene area =? asEuint32 0)) "No data for area";;
  let ciphertexts :=
    [ toBytes32 (encryptedAvgHygiene area);
      toBytes32 (encryptedRiskCount area) ] in
  reqId ← FHE_requestDecryption reqId ciphertexts sel_decryptAreaStats;
  write (set_requestToAnalysisId reqId locationCode).

Definition decryptAreaStats (requestId : N) (cleartexts proof : bytes) : Tx unit :=
  locationCode ← read (λ st, to_uint32 (pendingAnalysis st requestId));
  require (negb (locationCode =? 0)) "Invalid request";;
  FHE_checkSignatures requestId cleartexts proof;;
  stats ← decode_uint32_array cleartexts;
  (* Process decrypted area statistics *)
  mret tt.

Definition getReportCount (st : State) : N := reportCount st.
Definition getAnalysisStatus (st : State) (analysisId : N) : bool :=
  isRevealed (analysisAt st analysisId).

(** ** Calls and runs *)

(** A call of a state-changing entry point, with its arguments and what
    the environment supplies to it: the block's time, or the identifier
    the oracle returns. *)
Inductive Call :=
| SubmitInspectionReport
    (restaurantId hygieneScore foodSafetyScore facilityScore locationCode : euint32)
    (block_timestamp : N)
| RequestRiskAnalysis (reportId reqId : N)
| CalculateRiskScore (requestId : N) (cleartexts proof : bytes)
| RequestAnalysisDecryption (analysisId reqId : N)
| DecryptAnalysis (requestId : N) (cleartexts proof : bytes)
| RequestAreaStats (locationCode reqId : N)
| DecryptAreaStats (requestId : N) (cleartexts proof : bytes).

Definition run (c : Call) : Tx unit :=
  match c with
  | SubmitInspectionReport r h f fa l t => submitInspectionReport r h f fa l t
  | RequestRiskAnalysis reportId reqId => requestRiskAnalysis reportId reqId
  | CalculateRiskScore requestId c p => calculateRiskScore requestId c p
  | RequestAnalysisDecryption analysisId reqId =>
      requestAnalysisDecryption analysisId reqId
  | DecryptAnalysis requestId c p => decryptAnalysis requestId c p
  | RequestAreaStats locationCode reqId => requestAreaStats locationCode reqId
  | DecryptAreaStats requestId c p => decryptAreaStats requestId c p
  end.

(** What the chain keeps of a call: the new state if it returned, the
    old one if it reverted. *)
Definition exec (st : State) (c : Call) : State :=
  match run c st with
  | Returned _ st' => st'
  | Reverted _ _ => st
  end.

Definition execs (st : State) (cs : list Call) : State := foldl exec st cs.

Inductive reachable : State → Prop :=
| reachable_initial : reachable initial
| reachable_exec st c : reachable st → reachable (exec st c).

(** The request identifier [c] obtains from the oracle, if it is a dispatch. *)
Definition issued (c : Call) : option N :=
  match c with
  | RequestRiskAnalysis _ reqId
  | RequestAnalysisDecryption _ reqId
  | RequestAreaStats _ reqId => Some reqId
  | _ => None
  end.

End Contract.

(** ** A reference environment

    An instance of [FHEVM] on which the contract runs: a handle is the
    plaintext it stands for, a proof is valid when it is the request
    identifier as a 32-byte word, and payloads are ABI encodings of
    [uint32[]]. *)
Module Reference.

Definition byte_of (n : N) : byte := default x00 (Byte.of_N (n mod 256)).

(** A 32-byte big-endian word. *)
Definition word (n : N) : bytes :=
  map (λ i : nat, byte_of (n / 256 ^ (31 - N.of_nat i))) (seq 0 32).

Definition big_endian (bs : bytes) : N :=
  foldl (λ acc b, acc * 256 + Byte.to_N b) 0 bs.

Definition word_at (data : bytes) (off : N) : option N :=
  if N.of_nat (length data) <? off + 32 then None
  else Some (big_endian (take 32 (drop (N.to_nat off) data))).

Definition abi_encode_uint32_array (xs : list N) : bytes :=
  word 32 ++ word (N.of_nat (length xs)) ++ concat (map word xs).

Definition abi_decode_uint32_array (data : bytes) : option (list N) :=
  off ← word_at data 0;
  n ← word_at data off;
  if N.of_nat (length data) <? off + 32 + 32 * n then None
  else mapM (λ i : nat,
               x ← word_at data (off + 32 + 32 * N.of_nat i);
               if x <=? MAX_UINT32 then Some x else None)
            (seq 0 (N.to_nat n)).

(** The declared length is read and exceeds 2^64 - 1. *)
Definition abi_decode_uint32_array_panics (data : bytes) : bool :=
  match word_at data 0 with
  | Some off =>
      match word_at data off with
      | Some n => 2 ^ 64 - 1 <? n
      | None => false
      end
  | None => false
  end.

Definition proof_for (requestId : N) : bytes := word requestId.

#[export] Instance fhevm : FHEVM := {|
  asEuint32 v := to_uint32 v;
  FHE_add a b := to_uint32 (a + b);
  checkSignatures requestId cleartexts proof :=
    bool_decide (Byte.to_N <$> proof = Byte.to_N <$> proof_for requestId);
  abi_decode := abi_decode_uint32_array;
  abi_decode_panics := abi_decode_uint32_array_panics
|}.

End Reference.

(** ** Worked runs on the reference environment *)
Module Scenario.
Import Reference.

(** A report for restaurant 42 in area 1, scoring 50 on each axis. *)
Definition report : Call := SubmitInspectionReport 42 50 50 50 1 1000.
Definition risk_payload : bytes := abi_encode_uint32_array [50; 50; 50; 1].
Definition resolve_risk : Call := CalculateRiskScore 11 risk_payload (proof_for 11).

(** Report 1 submitted and its risk analysis requested as request 11. *)
Definition dispatched : State := execs initial [report; RequestRiskAnalysis 1 11].

(** Request 11 resolved: analysis 1 and the aggregate of area 1 exist. *)
Definition analysed : State := exec dispatched resolve_risk.

(** The statistics of area 1 requested as request 12. *)
Definition area_requested : State := exec analysed (RequestAreaStats 1 12).
Definition area_payload : bytes := abi_encode_uint32_array [50; 1].

(** The reveal of analysis 1 requested twice, as requests 12 and 13,
    and request 12 resolved. *)
Definition reveal_payload : bytes := abi_encode_uint32_array [150; 2].
Definition revealed : State :=
  execs analysed [RequestAnalysisDecryption 1 12; RequestAnalysisDecryption 1 13;
                  DecryptAnalysis 12 reveal_payload (proof_for 12)].

(** A report in area 0 analysed, so that area 0 has an aggregate. *)
Definition area_zero : State :=
  execs initial [SubmitInspectionReport 42 50 50 50 0 1000;
                 RequestRiskAnalysis 1 11;
                 CalculateRiskScore 11 (abi_encode_uint32_array [50; 50; 50; 0])
                   (proof_for 11)].

(** Two reports in area 5, their risk analyses requested as 11 and 12,
    and the two resolutions, with hygiene scores 70 and 90. *)
Definition two_dispatched : State :=
  execs initial [SubmitInspectionReport 42 70 60 60 5 1000;
                 SubmitInspectionReport 43 90 90 90 5 1001;
                 RequestRiskAnalysis 1 11; RequestRiskAnalysis 2 12].
Definition resolve_70 : Call :=
  CalculateRiskScore 11 (abi_encode_uint32_array [70; 60; 60; 5]) (proof_for 11).
Definition resolve_90 : Call :=
  CalculateRiskScore 12 (abi_encode_uint32_array [90; 90; 90; 5]) (proof_for 12).


(** Request 12, made for the statistics of area 1, delivered to
    [decryptAnalysis] with the oracle's payload and proof for it. *)
Definition deliver_area_to_analysis : Call :=
  DecryptAnalysis 12 area_payload (proof_for 12).
Definition cross_delivered : State := exec area_requested deliver_area_to_analysis.

(** Request 13, the second reveal of analysis 1, delivered after the first. *)
Definition deliver_second_reveal : Call :=
  DecryptAnalysis 13 reveal_payload (proof_for 13).
Definition revealed_twice : State := exec revealed deliver_second_reveal.

(** The statistics of area 0 requested as request 12, then another
    report submitted. *)
Definition area_zero_requested : State := exec area_zero (RequestAreaStats 0 12).

(** A risk analysis requested for report 0 before any report exists. *)
Definition zero_requested : State := exec initial (RequestRiskAnalysis 0 11).

End Scenario.

(** ** Vocabulary of the properties *)

(** The spec's names for the failures of the protocol. *)
Definition UnknownOrReplayedRequest : Failure := RequireFailed "Invalid request".
Definition UnknownTarget : Failure := RequireFailed "Invalid report ID".
Definition AlreadyRevealed : Failure := RequireFailed "Already revealed".
Definition InvalidProof : Failure := SignaturesRejected.

(** The callbacks, and the request they resolve. *)
Definition resolves (c : Call) : option N :=
  match c with
  | CalculateRiskScore requestId _ _
  | DecryptAnalysis requestId _ _
  | DecryptAreaStats requestId _ _ => Some requestId
  | _ => None
  end.

(** The entry of the pending table a callback reads for its request. *)
Definition pendingEntry (c : Call) (st : State) : N :=
  match c with
  | CalculateRiskScore requestId _ _ => pendingReport st requestId
  | DecryptAnalysis requestId _ _ => pendingAnalysis st requestId
  | DecryptAreaStats requestId _ _ => pendingAnalysis st requestId
  | _ => 0
  end.


(** The state [requestRiskAnalysis(0)] produces from [st] when the
    oracle answers [reqId]. *)
Definition zero_dispatched (reqId : N) (st : State) : State :=
  log_event (AnalysisRequested 0)
    (set_requestToReportId reqId 0
       (log_request
          {| req_id := reqId;
             req_ciphertexts :=
               [ toBytes32 (encryptedHygieneScore (reportAt st 0));
                 toBytes32 (encryptedFoodSafetyScore (reportAt st 0));
                 toBytes32 (encryptedFacilityScore (reportAt st 0));
                 toBytes32 (encryptedLocationCode (reportAt st 0)) ];
             req_callback := sel_calculateRiskScore |} st)).

(** The aggregate of an area after one resolution with the given hygiene
    and risk scores, from the aggregate [a] before it. *)
Definition area_after {fhe : FHEVM} (a : AreaStats) (hygieneScore riskScore : N) : AreaStats :=
  let a1 := if encryptedAvgHygiene a =? asEuint32 0
            then {| encryptedAvgHygiene := asEuint32 0;
                    encryptedRiskCount := asEuint32 0 |}
            else a in
  {| encryptedAvgHygiene :=
       FHE_add (encryptedAvgHygiene a1) (asEuint32 hygieneScore);
     encryptedRiskCount :=
       if 100 <? riskScore
       then FHE_add (encryptedRiskCount a1) (asEuint32 1)
       else encryptedRiskCount a1 |}.

(** The homomorphic contract of the FHE library, for a decryption
    [decrypt] of handles: constants decrypt to themselves, [FHE.add]
    adds plaintexts modulo 2^32, and a handle never assigned counts as
    zero. *)
Record homomorphic {fhe : FHEVM} (decrypt : euint32 → N) : Prop := {
  decrypt_asEuint32 : ∀ v, v ≤ MAX_UINT32 → decrypt (asEuint32 v) = v;
  decrypt_FHE_add : ∀ a b, decrypt (FHE_add a b) = to_uint32 (decrypt a + decrypt b);
  decrypt_unassigned : decrypt 0 = 0
}.

(** The identifiers announced by [ReportSubmitted], [RiskIdentified] and
    [AnalysisRevealed], in the order of emission. *)
Definition report_ids (evs : list Event) : list N :=
  omap (λ e, match e with ReportSubmitted id _ => Some id | _ => None end) evs.
Definition analysis_ids (evs : list Event) : list N :=
  omap (λ e, match e with RiskIdentified id => Some id | _ => None end) evs.

Definition analysis_reveals (evs : list Event) : list N :=
  omap (λ e, match e with AnalysisRevealed id => Some id | _ => None end) evs.

(** [1; 2; ...; n]. *)
Definition ids_upto (n : N) : list N := N.of_nat <$> seq 1 (N.to_nat n).

(** The identifiers in use are 1, ..., count, announced in this order. *)
Record sequential (st : State) : Prop := {
  reports_announced : report_ids (emitted st) = ids_upto (reportCount st);
  analyses_announced : analysis_ids (emitted st) = ids_upto (analysisCount st);
  reports_stored : ∀ id, is_Some (inspectionReports st !! id) ↔ 1 ≤ id ≤ reportCount st
}.

(** The requests sent to the oracle under identifier [reqId]. *)
Definition requests_with_id (reqId : N) (st : State) : list DecryptionRequest :=
  filter (λ r, req_id r = reqId) (requested st).

(** The selectors ever named in a request. *)
Definition callbacks_requested (st : State) : list Selector :=
  req_callback <$> requested st.

(** ** Proof tactics *)

Ltac tx_unfold :=
  unfold submitInspectionReport, requestRiskAnalysis, calculateRiskScore,
    requestAnalysisDecryption, decryptAnalysis, requestAreaStats,
    decryptAreaStats, increment, index, decode_uint32_array,
    FHE_checkSignatures, FHE_requestDecryption, emit, unwrap, require,
    revert, read, write, mbind, mret, Tx_bind, Tx_ret, tx_bind, tx_ret in *.

Ltac tx_cases :=
  repeat match goal with
         | H : context [match ?x with _ => _ end] |- _ =>
             destruct x eqn:?; simpl in H; try discriminate
         | H : Returned _ _ = Returned _ _ |- _ => inversion H; clear H; subst
         | H : Reverted _ _ = Reverted _ _ |- _ => inversion H; clear H; subst
         end.

Ltac neq_zero :=
  repeat match goal with
         | E : negb (_ =? 0) = true |- _ => apply negb_true_iff, N.eqb_neq in E
         | E : negb (_ =? 0) = false |- _ => apply negb_false_iff, N.eqb_eq in E
         end.

(** ** Further runs on the reference environment *)
Module MoreScenarios.
Import Reference.

(** The reveal of analysis 1 requested as request 12. *)
Definition reveal_requested : State :=
  exec Scenario.analysed (RequestAnalysisDecryption 1 12).

(** Two reports in area 5 and their requests; request 11 resolved with
    hygiene 0 and a risk score above 100, and the resolution of request
    12 with the same scores. *)
Definition zero_hygiene_once : State :=
  exec Scenario.two_dispatched
    (CalculateRiskScore 11 (abi_encode_uint32_array [0; 60; 60; 5]) (proof_for 11)).
Definition resolve_zero_hygiene_again : Call :=
  CalculateRiskScore 12 (abi_encode_uint32_array [0; 60; 60; 5]) (proof_for 12).

(** Area 5 has an aggregate after one resolution; its statistics are
    requested as request 13 and that request is delivered to
    [decryptAnalysis]. *)
Definition flagged_beyond_count : State :=
  execs Scenario.two_dispatched
    [Scenario.resolve_70; RequestAreaStats 5 13;
     DecryptAnalysis 13 (abi_encode_uint32_array [70; 1]) (proof_for 13)].

End MoreScenarios.

(** ** Further vocabulary *)

Definition NoDataForArea : Failure := RequireFailed "No data for area".

(** The request a dispatch sends to the oracle. *)
Definition riskRequest (st : State) (reportId reqId : N) : DecryptionRequest :=
  {| req_id := reqId;
     req_ciphertexts :=
       [ toBytes32 (encryptedHygieneScore (reportAt st reportId));
         toBytes32 (encryptedFoodSafetyScore (reportAt st reportId));
         toBytes32 (encryptedFacilityScore (reportAt st reportId));
         toBytes32 (encryptedLocationCode (reportAt st reportId)) ];
     req_callback := sel_calculateRiskScore |}.
Definition revealRequest (st : State) (analysisId reqId : N) : DecryptionRequest :=
  {| req_id := reqId;
     req_ciphertexts :=
       [ toBytes32 (encryptedRiskScore (analysisAt st analysisId));
         toBytes32 (encryptedPriorityLevel (analysisAt st analysisId)) ];
     req_callback := sel_decryptAnalysis |}.
Definition areaRequest (st : State) (locationCode reqId : N) : DecryptionRequest :=
  {| req_id := reqId;
     req_ciphertexts :=
       [ toBytes32 (encryptedAvgHygiene (areaAt st locationCode));
         toBytes32 (encryptedRiskCount (areaAt st locationCode)) ];
     req_callback := sel_decryptAreaStats |}.

(** A sequence of calls every one of which returns, and the state it ends in. *)
Fixpoint runs {fhe : FHEVM} (st : State) (cs : list Call) : option State :=
  match cs with
  | [] => Some st
  | c :: cs =>
      match run c st with
      | Returned _ st' => runs st' cs
      | Reverted _ _ => None
      end
  end.

(** The three scores of a risk payload, and what a list of them adds to
    an area: the hygiene scores, and one for each risk score above 100. *)
Definition Scores : Type := N * N * N.
Definition hygiene_of (x : Scores) : N := x.1.1.
Definition high_risk (x : Scores) : bool :=
  match riskScore x.1.1 x.1.2 x.2 with
  | Some r => 100 <? r
  | None => false
  end.
Definition hygiene_total (xs : list Scores) : N := foldr (λ x acc, hygiene_of x + acc) 0 xs.
Definition high_risk_total (xs : list Scores) : N :=
  N.of_nat (length (filter (λ x, high_risk x = true) xs)).

(** The risk resolution [c] carries the scores [x] for area [locationCode]. *)
Definition resolution_for {fhe : FHEVM} (locationCode : N) (c : Call) (x : Scores) : Prop :=
  ∃ requestId cleartexts proof rest,
    c = CalculateRiskScore requestId cleartexts proof ∧
    abi_decode cleartexts = Some (x.1.1 :: x.1.2 :: x.2 :: locationCode :: rest).

(** What holds of the tables in every state the contract reaches. *)
Record consistent (st : State) : Prop := {
  report_zero_empty : inspectionReports st !! 0 = None;
  analysis_zero_empty : riskAnalyses st !! 0 = None;
  pending_reports_exist : ∀ r, pendingReport st r ≤ reportCount st;
  pending_reports_requested : ∀ r, pendingReport st r ≠ 0 →
    ∃ q, q ∈ requested st ∧ req_id q = r ∧ req_callback q = sel_calculateRiskScore;
  pending_analyses_requested : ∀ r, pendingAnalysis st r ≠ 0 →
    ∃ q, q ∈ requested st ∧ req_id q = r ∧ req_callback q ≠ sel_calculateRiskScore;
  revealed_announced : ∀ id, isRevealed (analysisAt st id) = true →
    AnalysisRevealed id ∈ emitted st
}.

(** Where analyses are stored: at every identifier from 1 to
    [analysisCount], never at 0, and beyond [analysisCount] no slot holds
    an encrypted score or priority. *)
Record analyses_in_place (st : State) : Prop := {
  analyses_stored : ∀ id, 1 ≤ id ≤ analysisCount st → is_Some (riskAnalyses st !! id);
  analysis_zero_free : riskAnalyses st !! 0 = None;
  analyses_beyond_empty : ∀ id, analysisCount st < id →
    encryptedRiskScore (analysisAt st id) = 0 ∧
    encryptedPriorityLevel (analysisAt st id) = 0
}.

(** Peels the conjuncts and witnesses off [H], leaving its last conjunct. *)
Ltac peel H :=
  repeat match type of H with
         | _ ∧ _ => let H' := fresh "H" in destruct H as [H' H]
         | ex _ => let x := fresh "x" in destruct H as [x H]
         end.

(** * Properties *)

(** ** Failures write nothing *)

Section Frame.
Context {fhe : FHEVM}.

(** No entry point writes before the last point at which it can fail. *)
Lemma run_reverted_state (c : Call) (st st' : State) (e : Failure) :
  run c st = Reverted e st' → st' = st.
Proof.
  destruct c; simpl; tx_unfold; intros Hrun; tx_cases; reflexivity.
Qed.

End Frame.

(** ** The pending tables across a call *)

Section Pending.
Context {fhe : FHEVM}.

Lemma run_requestToReportId (c : Call) (st st' : State) :
  run c st = Returned tt st' →
  requestToReportId st' =
    match c with
    | RequestRiskAnalysis reportId reqId => <[reqId := reportId]> (requestToReportId st)
    | _ => requestToReportId st
    end.
Proof.
  destruct c; simpl; tx_unfold; intros Hrun; tx_cases; reflexivity.
Qed.

Lemma run_requestToAnalysisId (c : Call) (st st' : State) :
  run c st = Returned tt st' →
  requestToAnalysisId st' =
    match c with
    | RequestAnalysisDecryption id reqId
    | RequestAreaStats id reqId => <[reqId := id]> (requestToAnalysisId st)
    | _ => requestToAnalysisId st
    end.
Proof.
  destruct c; simpl; tx_unfold; intros Hrun; tx_cases; reflexivity.
Qed.


(** A callback whose entry reads zero stops at the first [require]. *)
Lemma callback_absent (c : Call) (st : State) :
  is_Some (resolves c) →
  pendingEntry c st = 0 →
  run c st = Reverted UnknownOrReplayedRequest st.
Proof.
  intros [r Hr] Hzero.
  destruct c; simpl in Hr, Hzero; try discriminate; simpl; tx_unfold;
    rewrite Hzero; reflexivity.
Qed.




End Pending.

(** ** Resolving a risk calculation *)

Section Resolution.
Context {fhe : FHEVM}.

Lemma sload_insert_eq {V} (d : V) (m : gmap N V) k v :
  sload d (<[k := v]> m) k = v.
Proof. unfold sload. by rewrite lookup_insert_eq. Qed.

Lemma sload_insert_ne {V} (d : V) (m : gmap N V) k k' v :
  k ≠ k' → sload d (<[k := v]> m) k' = sload d m k'.
Proof. intros. unfold sload. by rewrite lookup_insert_ne. Qed.

Lemma checked_add_Some max a b r :
  checked_add max a b = Some r ↔ r = a + b ∧ a + b ≤ max.
Proof.
  unfold checked_add. destruct (a + b <=? max) eqn:E.
  - apply N.leb_le in E. split; [intros [= <-] | intros [-> _]]; done.
  - apply N.leb_gt in E. split; [done | intros [_ ?]; lia].
Qed.

(** What a returned [calculateRiskScore] read, checked and wrote. *)
Lemma calculateRiskScore_returned requestId cleartexts proof st st' :
  calculateRiskScore requestId cleartexts proof st = Returned tt st' →
  ∃ scores h fs fa loc r,
    pendingReport st requestId ≠ 0 ∧
    checkSignatures requestId cleartexts proof = true ∧
    abi_decode cleartexts = Some scores ∧
    scores !! 0%nat = Some h ∧ scores !! 1%nat = Some fs ∧
    scores !! 2%nat = Some fa ∧ scores !! 3%nat = Some loc ∧
    riskScore h fs fa = Some r ∧
    analysisCount st < MAX_UINT256 ∧
    st' = log_event (RiskIdentified (analysisCount st + 1))
            (set_areaStats loc (area_after (areaAt st loc) h r)
               (set_riskAnalysis (analysisCount st + 1)
                  {| encryptedRiskScore := asEuint32 r;
                     encryptedPriorityLevel := asEuint32 (priorityLevel r);
                     isRevealed := false |}
                  (set_analysisCount (analysisCount st + 1) st))).
Proof.
  tx_unfold. intros Hrun. tx_cases.
  all: repeat match goal with
       | E : negb (_ =? 0) = true |- _ =>
           apply negb_true_iff, N.eqb_neq in E
       | E : checked_add _ _ _ = Some _ |- _ =>
           apply checked_add_Some in E; destruct E as [-> ?]
       end.
  all: eexists _, _, _, _, _, _; repeat split; try eassumption;
    try (unfold MAX_UINT256 in *; lia).
  all: unfold log_event, set_areaStats, set_riskAnalysis, set_analysisCount,
         area_after, areaAt in *; simpl in *; f_equal.
  all: repeat match goal with
       | E : (_ =? _) = _ |- _ => rewrite ?sload_insert_eq in E; simpl in E
       end.
  all: repeat (rewrite ?sload_insert_eq, ?insert_insert_eq; simpl).
  all: repeat match goal with
       | E : (_ =? _) = _ |- _ => rewrite E
       | E : (_ <? _) = _ |- _ => rewrite E
       end; try reflexivity.
Qed.

(** Conversely, a request that is pending, with a proof the library
    accepts and a payload of four scores in range, is resolved. *)
Lemma calculateRiskScore_returns requestId cleartexts proof st scores h fs fa loc r :
  pendingReport st requestId ≠ 0 →
  checkSignatures requestId cleartexts proof = true →
  abi_decode cleartexts = Some scores →
  scores !! 0%nat = Some h → scores !! 1%nat = Some fs →
  scores !! 2%nat = Some fa → scores !! 3%nat = Some loc →
  riskScore h fs fa = Some r →
  analysisCount st < MAX_UINT256 →
  calculateRiskScore requestId cleartexts proof st =
    Returned tt
      (log_event (RiskIdentified (analysisCount st + 1))
         (set_areaStats loc (area_after (areaAt st loc) h r)
            (set_riskAnalysis (analysisCount st + 1)
               {| encryptedRiskScore := asEuint32 r;
                  encryptedPriorityLevel := asEuint32 (priorityLevel r);
                  isRevealed := false |}
               (set_analysisCount (analysisCount st + 1) st)))).
Proof.
  intros Hp Hsig Hdec H0 H1 H2 H3 Hr Hn.
  destruct (calculateRiskScore requestId cleartexts proof st) as [[] st'|e st'] eqn:Hrun.
  - apply calculateRiskScore_returned in Hrun
      as (scores' & h' & fs' & fa' & loc' & r' & _ & _ & Hdec' & H0' & H1' & H2' & H3' & Hr' & _ & ->).
    congruence.
  - exfalso. revert Hrun. tx_unfold.
    apply N.eqb_neq in Hp. rewrite Hp, Hsig, Hdec, H0, H1, H2, H3, Hr. simpl.
    unfold checked_add.
    destruct (analysisCount st + 1 <=? MAX_UINT256) eqn:E.
    + simpl. repeat case_match; discriminate.
    + apply N.leb_gt in E. unfold MAX_UINT256 in *. lia.
Qed.

End Resolution.

(** ** Failed calls *)

(** C9. Every call that fails — a dispatch on an unknown target, a
    callback on an unknown request, a rejected proof or a malformed
    payload, a reveal request on a revealed analysis, or any other
    failure — leaves the whole state as it was: nothing had been written
    when execution stopped ([st' = st]), and the chain keeps the state
    from before the call. *)
Theorem C9_failure_leaves_state {fhe : FHEVM} (c : Call) (st st' : State) (e : Failure) :
  run c st = Reverted e st' →
  st' = st ∧ exec st c = st.
Proof.
  intros Hrun. split.
  - exact (run_reverted_state c st st' e Hrun).
  - unfold exec. by rewrite Hrun.
Qed.

Lemma C9_failure_leaves_state_witness :
  run (fhe := Reference.fhevm) (RequestRiskAnalysis 1 11) initial
    = Reverted UnknownTarget initial ∧
  exec (fhe := Reference.fhevm) initial (RequestRiskAnalysis 1 11) = initial.
Proof.
  split; [reflexivity |].
  exact (proj2 (C9_failure_leaves_state (fhe := Reference.fhevm)
                  (RequestRiskAnalysis 1 11) initial initial UnknownTarget eq_refl)).
Defined.

(** Each failure the protocol names does occur, and at an unchanged state. *)
Example unknown_request_fails :
  run (fhe := Reference.fhevm) Scenario.resolve_risk initial
    = Reverted UnknownOrReplayedRequest initial.
Proof. reflexivity. Qed.

Example invalid_proof_fails :
  run (fhe := Reference.fhevm)
      (CalculateRiskScore 11 Scenario.risk_payload []) Scenario.dispatched
    = Reverted InvalidProof Scenario.dispatched.
Proof. vm_compute. reflexivity. Qed.

Example malformed_payload_fails :
  run (fhe := Reference.fhevm)
      (CalculateRiskScore 11 [] (Reference.proof_for 11)) Scenario.dispatched
    = Reverted DecodeFailed Scenario.dispatched ∧
  run (fhe := Reference.fhevm)
      (CalculateRiskScore 11 Scenario.area_payload (Reference.proof_for 11))
      Scenario.dispatched
    = Reverted OUT_OF_BOUNDS Scenario.dispatched.
Proof. split; vm_compute; reflexivity. Qed.

Example oversized_length_fails :
  run (fhe := Reference.fhevm)
      (CalculateRiskScore 11 (Reference.word 32 ++ Reference.word (2 ^ 64))
         (Reference.proof_for 11))
      Scenario.dispatched
    = Reverted ALLOCATION Scenario.dispatched.
Proof. vm_compute. reflexivity. Qed.

Example out_of_range_score_fails :
  run (fhe := Reference.fhevm)
      (CalculateRiskScore 11 (Reference.abi_encode_uint32_array [101; 50; 50; 1])
         (Reference.proof_for 11))
      Scenario.dispatched
    = Reverted ARITHMETIC Scenario.dispatched.
Proof. vm_compute. reflexivity. Qed.

Example already_revealed_fails :
  run (fhe := Reference.fhevm) (RequestAnalysisDecryption 1 14) Scenario.revealed
    = Reverted AlreadyRevealed Scenario.revealed.
Proof. vm_compute. reflexivity. Qed.

(** ** Replay *)




(** ** Revealing the statistics of an area *)

(** C6, as the contract has it. A returned [decryptAreaStats] leaves the
    whole state exactly as it was: the counters, the reports, the
    analyses and the area aggregates, and also both pending tables. The
    entry of the request is not removed; it still reads the non-zero
    location code it was resolved for. *)
Theorem C6_area_reveal_changes_nothing {fhe : FHEVM}
    (requestId : N) (cleartexts proof : bytes) (st st' : State) :
  decryptAreaStats requestId cleartexts proof st = Returned tt st' →
  st' = st ∧ to_uint32 (pendingAnalysis st' requestId) ≠ 0.
Proof.
  tx_unfold. intros Hrun. tx_cases. neq_zero. done.
Qed.

Lemma C6_area_reveal_changes_nothing_witness :
  exec (fhe := Reference.fhevm) Scenario.area_requested
       (DecryptAreaStats 12 Scenario.area_payload (Reference.proof_for 12))
    = Scenario.area_requested ∧
  to_uint32 (pendingAnalysis Scenario.area_requested 12) ≠ 0.
Proof.
  assert (Hrun : decryptAreaStats (fhe := Reference.fhevm) 12 Scenario.area_payload
                   (Reference.proof_for 12) Scenario.area_requested
                 = Returned tt Scenario.area_requested)
    by (vm_compute; reflexivity).
  split.
  - vm_compute. reflexivity.
  - exact (proj2 (C6_area_reveal_changes_nothing 12 _ _ _ _ Hrun)).
Defined.

(** Request 12, for the statistics of area 1, is resolved with the
    payload the oracle decrypts for it, and its entry is still in the
    table afterwards. *)
Lemma C6_entry_kept_counterexample :
  run (fhe := Reference.fhevm)
      (DecryptAreaStats 12 Scenario.area_payload (Reference.proof_for 12))
      Scenario.area_requested
    = Returned tt Scenario.area_requested ∧
  pendingAnalysis Scenario.area_requested 12 = 1 ∧
  requestToAnalysisId Scenario.area_requested !! 12 = Some 1.
Proof. repeat split; vm_compute; reflexivity. Qed.

(** ** Dispatching a risk analysis *)

(** An identifier beyond [reportCount] is refused, and nothing is recorded. *)
Lemma requestRiskAnalysis_beyond_count (reportId reqId : N) (st : State) :
  reportCount st < reportId →
  requestRiskAnalysis reportId reqId st = Reverted UnknownTarget st.
Proof.
  intros Hlt. tx_unfold. apply N.leb_gt in Hlt. rewrite Hlt. reflexivity.
Qed.

(** The guard [reportId <= reportCount] lets the identifier 0 through
    in every state. *)
Lemma requestRiskAnalysis_zero (reqId : N) (st : State) :
  requestRiskAnalysis 0 reqId st = Returned tt (zero_dispatched reqId st).
Proof.
  assert (Hguard : (0 <=? reportCount st) = true) by (apply N.leb_le; lia).
  tx_unfold. rewrite Hguard. reflexivity.
Qed.

(** C3 at report identifier 0, which no report has: in any state, also
    before any report exists, the call does not fail with
    [UnknownTarget]. It returns: the request is sent to the oracle with
    the four handles of the empty slot 0, the value 0 is written to the
    pending table under the new request and [AnalysisRequested(0)] is
    emitted. *)
Theorem C3_report_zero_is_dispatched (reqId : N) (st : State) :
  requestRiskAnalysis 0 reqId st = Returned tt (zero_dispatched reqId st) ∧
  requestRiskAnalysis 0 reqId st ≠ Reverted UnknownTarget st ∧
  emitted (zero_dispatched reqId st) = emitted st ++ [AnalysisRequested 0] ∧
  length (requested (zero_dispatched reqId st)) = S (length (requested st)).
Proof.
  rewrite requestRiskAnalysis_zero. repeat split; [discriminate |].
  simpl. rewrite length_app. simpl. lia.
Qed.

(** Before any report exists. *)
Example report_zero_dispatched_initially :
  run (fhe := Reference.fhevm) (RequestRiskAnalysis 0 11) initial
    = Returned tt Scenario.zero_requested ∧
  emitted Scenario.zero_requested = [AnalysisRequested 0] ∧
  requested Scenario.zero_requested
    = [{| req_id := 11; req_ciphertexts := [0; 0; 0; 0];
          req_callback := sel_calculateRiskScore |}].
Proof. repeat split; vm_compute; reflexivity. Qed.

(** ** The revealed flag *)

(** What a returned [decryptAnalysis] read, checked and wrote. *)
Lemma decryptAnalysis_returned {fhe : FHEVM}
    (requestId : N) (cleartexts proof : bytes) (st st' : State) :
  decryptAnalysis requestId cleartexts proof st = Returned tt st' →
  pendingAnalysis st requestId ≠ 0 ∧
  checkSignatures requestId cleartexts proof = true ∧
  is_Some (abi_decode cleartexts) ∧
  st' = log_event (AnalysisRevealed (pendingAnalysis st requestId))
          (set_riskAnalysis (pendingAnalysis st requestId)
             {| encryptedRiskScore :=
                  encryptedRiskScore (analysisAt st (pendingAnalysis st requestId));
                encryptedPriorityLevel :=
                  encryptedPriorityLevel (analysisAt st (pendingAnalysis st requestId));
                isRevealed := true |} st).
Proof.
  tx_unfold. intros Hrun. tx_cases. neq_zero. done.
Qed.

(** The flag of an analysis is only ever set by [decryptAnalysis], on
    the identifier its request reads from [requestToAnalysisId]. *)
Lemma revealed_only_by_decryptAnalysis {fhe : FHEVM} (c : Call) (st : State) (id : N) :
  getAnalysisStatus st id = false →
  getAnalysisStatus (exec st c) id = true →
  ∃ requestId cleartexts proof,
    c = DecryptAnalysis requestId cleartexts proof ∧
    pendingAnalysis st requestId = id ∧ id ≠ 0 ∧
    checkSignatures requestId cleartexts proof = true.
Proof.
  unfold getAnalysisStatus, exec. intros Hbefore Hafter.
  destruct (run c st) as [[] st'|e st'] eqn:Hrun; [| congruence].
  destruct c; simpl in Hrun.
  3: { apply calculateRiskScore_returned in Hrun
         as (? & ? & ? & ? & ? & ? & _ & _ & _ & _ & _ & _ & _ & _ & _ & ->).
       revert Hafter. unfold analysisAt. simpl.
       destruct (decide (analysisCount st + 1 = id)) as [->|Hne].
       - rewrite sload_insert_eq. done.
       - rewrite sload_insert_ne by done. fold (analysisAt st id). congruence. }
  4: { apply decryptAnalysis_returned in Hrun as (Hnz & Hsig & _ & ->).
       revert Hafter. unfold analysisAt at 1. simpl.
       destruct (decide (pendingAnalysis st requestId = id)) as [Heq|Hne].
       - intros _. eexists _, _, _. split; [reflexivity |].
         repeat split; congruence.
       - rewrite sload_insert_ne by done. fold (analysisAt st id). congruence. }
  all: revert Hrun; tx_unfold; intros Hrun; tx_cases;
    unfold analysisAt in *; simpl in *; congruence.
Qed.

(** Once set, the flag of an identifier stays set until an analysis is
    created at that identifier. *)
Lemma revealed_stays {fhe : FHEVM} (c : Call) (st : State) (id : N) :
  getAnalysisStatus st id = true →
  id ≤ analysisCount st →
  getAnalysisStatus (exec st c) id = true.
Proof.
  unfold getAnalysisStatus, exec. intros Hbefore Hle.
  destruct (run c st) as [[] st'|e st'] eqn:Hrun; [| done].
  destruct c; simpl in Hrun.
  3: { apply calculateRiskScore_returned in Hrun
         as (? & ? & ? & ? & ? & ? & _ & _ & _ & _ & _ & _ & _ & _ & _ & ->).
       unfold analysisAt. simpl. rewrite sload_insert_ne by lia. done. }
  4: { apply decryptAnalysis_returned in Hrun as (_ & _ & _ & ->).
       unfold analysisAt at 1. simpl.
       destruct (decide (pendingAnalysis st requestId = id)) as [Heq|Hne].
       - rewrite Heq, sload_insert_eq. done.
       - rewrite sload_insert_ne by done. done. }
  all: revert Hrun; tx_unfold; intros Hrun; tx_cases;
    unfold analysisAt in *; simpl in *; done.
Qed.

(** C2 at a request made for another purpose. Analysis 1 exists and is
    not revealed, and no reveal of any analysis was ever requested.
    Request 12 was sent by [requestAreaStats] for area 1 and names
    [decryptAreaStats] as its callback. Delivered to [decryptAnalysis]
    with the oracle's payload and proof for it, it returns and sets the
    revealed flag of analysis 1. *)
Theorem C2_area_request_sets_revealed :
  analysisCount Scenario.area_requested = 1 ∧
  getAnalysisStatus Scenario.area_requested 1 = false ∧
  requests_with_id 12 Scenario.area_requested
    = [{| req_id := 12; req_ciphertexts := [50; 1];
          req_callback := sel_decryptAreaStats |}] ∧
  (sel_decryptAnalysis ∉ callbacks_requested Scenario.area_requested) ∧
  run (fhe := Reference.fhevm) Scenario.deliver_area_to_analysis Scenario.area_requested
    = Returned tt Scenario.cross_delivered ∧
  getAnalysisStatus Scenario.cross_delivered 1 = true ∧
  emitted Scenario.cross_delivered
    = emitted Scenario.area_requested ++ [AnalysisRevealed 1].
Proof.
  repeat apply conj; try (vm_compute; reflexivity).
  replace (callbacks_requested Scenario.area_requested)
    with [sel_calculateRiskScore; sel_decryptAreaStats]
    by (vm_compute; reflexivity).
  intros Hin. repeat (apply elem_of_cons in Hin as [Hin|Hin]; [discriminate |]).
  by apply elem_of_nil in Hin.
Qed.

(** C8 on the callback path. Two reveals of analysis 1 were requested
    while it was unrevealed (requests 12 and 13) and request 12 has been
    resolved, so the flag is set. A further reveal request is refused
    with [AlreadyRevealed], but the callback of request 13 is not: it
    returns, sets the flag again and emits [AnalysisRevealed(1)] a second
    time. *)
Theorem C8_second_reveal_by_callback_returns :
  getAnalysisStatus Scenario.revealed 1 = true ∧
  run (fhe := Reference.fhevm) (RequestAnalysisDecryption 1 14) Scenario.revealed
    = Reverted AlreadyRevealed Scenario.revealed ∧
  run (fhe := Reference.fhevm) Scenario.deliver_second_reveal Scenario.revealed
    = Returned tt Scenario.revealed_twice ∧
  getAnalysisStatus Scenario.revealed_twice 1 = true ∧
  emitted Scenario.revealed_twice = emitted Scenario.revealed ++ [AnalysisRevealed 1] ∧
  analysis_reveals (emitted Scenario.revealed_twice) = [1; 1].
Proof. repeat apply conj; vm_compute; reflexivity. Qed.

(** On the dispatch path the guard is there: a reveal request for an
    existing, revealed analysis fails with [AlreadyRevealed]. *)
Lemma requestAnalysisDecryption_already_revealed (analysisId reqId : N) (st : State) :
  analysisId ≤ analysisCount st →
  getAnalysisStatus st analysisId = true →
  requestAnalysisDecryption analysisId reqId st = Reverted AlreadyRevealed st.
Proof.
  unfold getAnalysisStatus. intros Hle Hrev. tx_unfold.
  apply N.leb_le in Hle. rewrite Hle. simpl. rewrite Hrev. reflexivity.
Qed.

(** The callback has no such guard: whatever it does, it never fails
    with [AlreadyRevealed]. *)
Lemma decryptAnalysis_never_already_revealed {fhe : FHEVM}
    (requestId : N) (cleartexts proof : bytes) (st st' : State) :
  decryptAnalysis requestId cleartexts proof st ≠ Reverted AlreadyRevealed st'.
Proof.
  tx_unfold. unfold AlreadyRevealed. intros Hrun. tx_cases.
Qed.

(** ** Risk score and priority *)

Lemma riskScore_in_range (h fs fa : N) :
  h ≤ 100 → fs ≤ 100 → fa ≤ 100 →
  riskScore h fs fa = Some (300 - h - fs - fa).
Proof.
  intros Hh Hfs Hfa. unfold riskScore, checked_sub, checked_add, MAX_UINT32.
  rewrite (proj2 (N.leb_le h 100) Hh). simpl.
  rewrite (proj2 (N.leb_le fs 100) Hfs). simpl.
  assert (E1 : (100 - h + (100 - fs) <=? 2 ^ 32 - 1) = true)
    by (apply N.leb_le; lia).
  rewrite E1. simpl.
  rewrite (proj2 (N.leb_le fa 100) Hfa). simpl.
  assert (E2 : (100 - h + (100 - fs) + (100 - fa) <=? 2 ^ 32 - 1) = true)
    by (apply N.leb_le; lia).
  rewrite E2. f_equal. lia.
Qed.

(** A score above 100 makes the subtraction fail: no risk score. *)
Lemma riskScore_out_of_range (h fs fa : N) :
  100 < h ∨ 100 < fs ∨ 100 < fa → riskScore h fs fa = None.
Proof.
  intros Hout. unfold riskScore, checked_sub.
  destruct (h <=? 100) eqn:Eh; simpl; [| done].
  destruct (fs <=? 100) eqn:Efs; simpl; [| done].
  destruct (checked_add MAX_UINT32 (100 - h) (100 - fs)); simpl; [| done].
  destruct (fa <=? 100) eqn:Efa; simpl; [| done].
  apply N.leb_le in Eh, Efs, Efa. lia.
Qed.

Lemma priorityLevel_cases (r : N) :
  (r ≤ 100 → priorityLevel r = 1) ∧
  (100 < r ≤ 150 → priorityLevel r = 2) ∧
  (150 < r → priorityLevel r = 3).
Proof.
  unfold priorityLevel.
  destruct (150 <? r) eqn:E1; destruct (100 <? r) eqn:E2;
    try apply N.ltb_lt in E1; try apply N.ltb_ge in E1;
    try apply N.ltb_lt in E2; try apply N.ltb_ge in E2;
    repeat split; intros; try reflexivity; lia.
Qed.

(** C4. For hygiene, food-safety and facility scores in [0,100] the risk
    score is 300 - hygiene - foodSafety - facility, which is
    (100-hygiene)+(100-foodSafety)+(100-facility) with no underflow; the
    priority is 1 up to 100, 2 above 100 and up to 150, 3 above 150; and
    a resolution of a pending request carrying these scores stores the
    encryption of exactly this score and priority as the new analysis. *)
Theorem C4_risk_score_and_priority {fhe : FHEVM} (hygiene foodSafety facility : N) :
  hygiene ≤ 100 → foodSafety ≤ 100 → facility ≤ 100 →
  let r := 300 - hygiene - foodSafety - facility in
  riskScore hygiene foodSafety facility = Some r ∧
  r = (100 - hygiene) + (100 - foodSafety) + (100 - facility) ∧
  (r ≤ 100 → priorityLevel r = 1) ∧
  (100 < r ≤ 150 → priorityLevel r = 2) ∧
  (150 < r → priorityLevel r = 3) ∧
  ∀ requestId cleartexts proof locationCode rest st,
    pendingReport st requestId ≠ 0 →
    checkSignatures requestId cleartexts proof = true →
    abi_decode cleartexts
      = Some (hygiene :: foodSafety :: facility :: locationCode :: rest) →
    analysisCount st < MAX_UINT256 →
    ∃ st', calculateRiskScore requestId cleartexts proof st = Returned tt st' ∧
           analysisCount st' = analysisCount st + 1 ∧
           analysisAt st' (analysisCount st') =
             {| encryptedRiskScore := asEuint32 r;
                encryptedPriorityLevel := asEuint32 (priorityLevel r);
                isRevealed := false |}.
Proof.
  intros Hh Hfs Hfa r.
  pose proof (riskScore_in_range _ _ _ Hh Hfs Hfa) as Hr. fold r in Hr.
  destruct (priorityLevel_cases r) as (P1 & P2 & P3).
  repeat apply conj; try assumption.
  { subst r. lia. }
  intros requestId cleartexts proof locationCode rest st Hp Hsig Hdec Hn.
  eexists. split.
  { eapply calculateRiskScore_returns; eauto. }
  split; [reflexivity |].
  unfold analysisAt. simpl. by rewrite sload_insert_eq.
Qed.

(** The spec's first example: 90, 85, 80 give 45, priority 1. *)
Lemma C4_risk_score_and_priority_witness :
  riskScore 90 85 80 = Some 45 ∧ priorityLevel 45 = 1.
Proof.
  destruct (C4_risk_score_and_priority (fhe := Reference.fhevm) 90 85 80
              ltac:(lia) ltac:(lia) ltac:(lia)) as (Hr & _ & P1 & _).
  split; [exact Hr | apply P1; lia].
Defined.

Example risk_score_40_30_20 :
  riskScore 40 30 20 = Some 210 ∧ priorityLevel 210 = 3.
Proof. split; reflexivity. Qed.

Example analysis_of_scenario :
  analysisAt Scenario.analysed 1
    = {| encryptedRiskScore := 150; encryptedPriorityLevel := 2; isRevealed := false |}.
Proof. vm_compute. reflexivity. Qed.

(** ** Area aggregates *)

Lemma calculateRiskScore_area {fhe : FHEVM} requestId cleartexts proof st st'
    h fs fa loc rest :
  abi_decode cleartexts = Some (h :: fs :: fa :: loc :: rest) →
  calculateRiskScore requestId cleartexts proof st = Returned tt st' →
  ∃ r, riskScore h fs fa = Some r ∧
       areaAt st' loc = area_after (areaAt st loc) h r ∧
       ∀ loc', loc' ≠ loc → areaAt st' loc' = areaAt st loc'.
Proof.
  intros Hdec Hrun.
  apply calculateRiskScore_returned in Hrun
    as (scores & h' & fs' & fa' & loc' & r & _ & _ & Hdec' & H0 & H1 & H2 & H3 & Hr & _ & ->).
  rewrite Hdec in Hdec'. injection Hdec' as <-. simpl in *.
  injection H0 as <-. injection H1 as <-. injection H2 as <-. injection H3 as <-.
  exists r. split; [done |]. unfold areaAt. simpl. split.
  - by rewrite sload_insert_eq.
  - intros loc' Hne. by rewrite sload_insert_ne.
Qed.

(** Only [calculateRiskScore] writes to the area aggregates. *)
Lemma areaStatistics_kept {fhe : FHEVM} (c : Call) (st : State) :
  (∀ requestId cleartexts proof, c ≠ CalculateRiskScore requestId cleartexts proof) →
  areaStatistics (exec st c) = areaStatistics st.
Proof.
  intros Hc. unfold exec.
  destruct (run c st) as [[] st'|e st'] eqn:Hrun; [| done].
  destruct c; simpl in Hrun; try (by edestruct Hc);
    revert Hrun; tx_unfold; intros Hrun; tx_cases; done.
Qed.

Section Homomorphic.
Context {fhe : FHEVM} (decrypt : euint32 → N) (Hhom : homomorphic decrypt).

(** One resolution adds the hygiene score to the sum and one to the
    count of a high-risk analysis, provided the aggregate is not one
    whose sum decrypts to zero while its count does not. *)
Lemma decrypt_area_after (a : AreaStats) (h r : N) :
  h ≤ MAX_UINT32 →
  decrypt (encryptedAvgHygiene a) ≠ 0 ∨ decrypt (encryptedRiskCount a) = 0 →
  decrypt (encryptedAvgHygiene (area_after a h r))
    = to_uint32 (decrypt (encryptedAvgHygiene a) + h) ∧
  decrypt (encryptedRiskCount (area_after a h r))
    = if 100 <? r then to_uint32 (decrypt (encryptedRiskCount a) + 1)
      else decrypt (encryptedRiskCount a).
Proof.
  intros Hh Hcount. destruct Hhom as [Henc Hadd Hzero].
  assert (H0 : decrypt (asEuint32 0) = 0) by (apply Henc; unfold MAX_UINT32; lia).
  assert (H1 : decrypt (asEuint32 1) = 1) by (apply Henc; unfold MAX_UINT32; lia).
  unfold area_after.
  destruct (encryptedAvgHygiene a =? asEuint32 0) eqn:E; simpl.
  - apply N.eqb_eq in E.
    assert (Havg : decrypt (encryptedAvgHygiene a) = 0) by (rewrite E; exact H0).
    destruct Hcount as [? | Hc]; [done |].
    rewrite Havg, Hc. split.
    + by rewrite Hadd, H0, (Henc h Hh).
    + destruct (100 <? r); [by rewrite Hadd, H0, H1 | exact H0].
  - split.
    + by rewrite Hadd, (Henc h Hh).
    + destruct (100 <? r); [by rewrite Hadd, H1 | done].
Qed.

End Homomorphic.

(** C5. Starting from no aggregate for a location code, two returned
    risk resolutions for that code with hygiene scores 70 and 90 (no
    other resolution for the code in between) leave an aggregate whose
    hygiene sum decrypts to 160, and whose high-risk count went up by
    exactly one at each of the two resolutions whose risk score exceeds
    100, and by nothing otherwise. *)
Theorem C5_area_aggregate_70_90 {fhe : FHEVM} (decrypt : euint32 → N)
    (st st1 st1' st2 : State) (locationCode : N)
    (requestId1 requestId2 : N) (cleartexts1 proof1 cleartexts2 proof2 : bytes)
    (foodSafety1 facility1 foodSafety2 facility2 : N) (rest1 rest2 : list N) :
  homomorphic decrypt →
  areaAt st locationCode = zeroAreaStats →
  abi_decode cleartexts1
    = Some (70 :: foodSafety1 :: facility1 :: locationCode :: rest1) →
  calculateRiskScore requestId1 cleartexts1 proof1 st = Returned tt st1 →
  areaAt st1' locationCode = areaAt st1 locationCode →
  abi_decode cleartexts2
    = Some (90 :: foodSafety2 :: facility2 :: locationCode :: rest2) →
  calculateRiskScore requestId2 cleartexts2 proof2 st1' = Returned tt st2 →
  ∃ riskScore1 riskScore2,
    riskScore 70 foodSafety1 facility1 = Some riskScore1 ∧
    riskScore 90 foodSafety2 facility2 = Some riskScore2 ∧
    decrypt (encryptedAvgHygiene (areaAt st2 locationCode)) = 160 ∧
    decrypt (encryptedRiskCount (areaAt st1 locationCode))
      = (if 100 <? riskScore1 then 1 else 0) ∧
    decrypt (encryptedRiskCount (areaAt st2 locationCode))
      = decrypt (encryptedRiskCount (areaAt st1 locationCode))
        + (if 100 <? riskScore2 then 1 else 0).
Proof.
  intros Hhom Hfresh Hdec1 Hrun1 Hbetween Hdec2 Hrun2.
  destruct (calculateRiskScore_area _ _ _ _ _ _ _ _ _ _ Hdec1 Hrun1)
    as (k1 & Hk1 & Harea1 & _).
  destruct (calculateRiskScore_area _ _ _ _ _ _ _ _ _ _ Hdec2 Hrun2)
    as (k2 & Hk2 & Harea2 & _).
  exists k1, k2. split; [done |]. split; [done |].
  assert (Hz : decrypt 0 = 0) by apply Hhom.
  destruct (decrypt_area_after decrypt Hhom (areaAt st locationCode) 70 k1)
    as [Havg1 Hcnt1].
  { unfold MAX_UINT32. lia. }
  { right. rewrite Hfresh. exact Hz. }
  rewrite <- Harea1, Hfresh in Havg1, Hcnt1. simpl in Havg1, Hcnt1.
  rewrite Hz in Havg1, Hcnt1.
  change (to_uint32 (0 + 70)) with 70 in Havg1.
  change (to_uint32 (0 + 1)) with 1 in Hcnt1.
  destruct (decrypt_area_after decrypt Hhom (areaAt st1' locationCode) 90 k2)
    as [Havg2 Hcnt2].
  { unfold MAX_UINT32. lia. }
  { left. rewrite Hbetween, Havg1. lia. }
  rewrite <- Harea2, Hbetween in Havg2, Hcnt2.
  rewrite Havg1 in Havg2. change (to_uint32 (70 + 90)) with 160 in Havg2.
  split; [exact Havg2 |]. split; [exact Hcnt1 |].
  rewrite Hcnt2, Hcnt1.
  destruct (100 <? k2); [| lia].
  destruct (100 <? k1); reflexivity.
Qed.

Lemma reference_homomorphic : homomorphic (fhe := Reference.fhevm) (λ h, h).
Proof.
  split; simpl.
  - intros v Hv. unfold to_uint32. apply N.mod_small.
    unfold MAX_UINT32 in Hv. lia.
  - reflexivity.
  - reflexivity.
Qed.

Lemma C5_area_aggregate_70_90_witness :
  areaAt (execs (fhe := Reference.fhevm) Scenario.two_dispatched
            [Scenario.resolve_70; Scenario.resolve_90]) 5
    = {| encryptedAvgHygiene := 160; encryptedRiskCount := 1 |} ∧
  ∃ riskScore1 riskScore2,
    riskScore 70 60 60 = Some riskScore1 ∧
    riskScore 90 90 90 = Some riskScore2 ∧
    encryptedAvgHygiene
      (areaAt (execs (fhe := Reference.fhevm) Scenario.two_dispatched
                 [Scenario.resolve_70; Scenario.resolve_90]) 5) = 160 ∧
    encryptedRiskCount
      (areaAt (exec (fhe := Reference.fhevm) Scenario.two_dispatched
                 Scenario.resolve_70) 5)
      = (if 100 <? riskScore1 then 1 else 0) ∧
    encryptedRiskCount
      (areaAt (execs (fhe := Reference.fhevm) Scenario.two_dispatched
                 [Scenario.resolve_70; Scenario.resolve_90]) 5)
      = encryptedRiskCount
          (areaAt (exec (fhe := Reference.fhevm) Scenario.two_dispatched
                     Scenario.resolve_70) 5)
        + (if 100 <? riskScore2 then 1 else 0).
Proof.
  split; [vm_compute; reflexivity |].
  exact (C5_area_aggregate_70_90 (fhe := Reference.fhevm) (λ h, h)
           Scenario.two_dispatched
           (exec (fhe := Reference.fhevm) Scenario.two_dispatched Scenario.resolve_70)
           (exec (fhe := Reference.fhevm) Scenario.two_dispatched Scenario.resolve_70)
           (execs (fhe := Reference.fhevm) Scenario.two_dispatched
              [Scenario.resolve_70; Scenario.resolve_90])
           5 11 12
           (Reference.abi_encode_uint32_array [70; 60; 60; 5]) (Reference.proof_for 11)
           (Reference.abi_encode_uint32_array [90; 90; 90; 5]) (Reference.proof_for 12)
           60 60 90 90 [] []
           reference_homomorphic
           ltac:(vm_compute; reflexivity) ltac:(vm_compute; reflexivity)
           ltac:(vm_compute; reflexivity) eq_refl
           ltac:(vm_compute; reflexivity) ltac:(vm_compute; reflexivity)).
Defined.

(** The creation of an aggregate tests the hygiene sum against the
    encryption of zero, so an aggregate whose sum is still zero is
    created again: after two high-risk resolutions with hygiene score
    0, the count of the area is 1. *)
Example zero_hygiene_sum_resets_count :
  areaAt (execs (fhe := Reference.fhevm) Scenario.two_dispatched
            [CalculateRiskScore 11 (Reference.abi_encode_uint32_array [0; 60; 60; 5])
               (Reference.proof_for 11);
             CalculateRiskScore 12 (Reference.abi_encode_uint32_array [0; 60; 60; 5])
               (Reference.proof_for 12)]) 5
    = {| encryptedAvgHygiene := 0; encryptedRiskCount := 1 |}.
Proof. vm_compute. reflexivity. Qed.

(** ** Identifiers *)

Lemma ids_upto_succ (n : N) : ids_upto (n + 1) = ids_upto n ++ [n + 1].
Proof.
  unfold ids_upto.
  replace (N.to_nat (n + 1)) with (S (N.to_nat n)) by lia.
  rewrite seq_S, fmap_app. simpl. do 2 f_equal. lia.
Qed.

Lemma elem_of_ids_upto (n id : N) : id ∈ ids_upto n ↔ 1 ≤ id ≤ n.
Proof.
  unfold ids_upto. rewrite list_elem_of_fmap. split.
  - intros (k & -> & Hk). apply elem_of_seq in Hk. lia.
  - intros Hid. exists (N.to_nat id). split; [lia |]. apply elem_of_seq. lia.
Qed.

Lemma of_nat_seq_sorted (a k : nat) : StronglySorted N.lt (N.of_nat <$> seq a k).
Proof.
  revert a. induction k as [|k IH]; intros a; simpl.
  - constructor.
  - constructor; [apply IH |].
    apply Forall_forall. intros x Hx.
    apply list_elem_of_fmap in Hx as (i & -> & Hi).
    apply elem_of_seq in Hi. lia.
Qed.

Lemma ids_upto_sorted (n : N) : StronglySorted N.lt (ids_upto n).
Proof. apply of_nat_seq_sorted. Qed.

Lemma ids_upto_NoDup (n : N) : NoDup (ids_upto n).
Proof.
  unfold ids_upto. apply NoDup_fmap_2; [intros x y; lia | apply NoDup_seq].
Qed.

Section Identifiers.
Context {fhe : FHEVM}.

Lemma submitInspectionReport_returns r h f fa l t (st : State) :
  reportCount st < MAX_UINT256 →
  submitInspectionReport r h f fa l t st
    = Returned tt
        (log_event (ReportSubmitted (reportCount st + 1) t)
           (set_inspectionReport (reportCount st + 1)
              {| encryptedRestaurantId := r; encryptedHygieneScore := h;
                 encryptedFoodSafetyScore := f; encryptedFacilityScore := fa;
                 encryptedLocationCode := l; timestamp := t |}
              (set_reportCount (reportCount st + 1) st))).
Proof.
  intros Hlt. tx_unfold. unfold checked_add.
  assert (E : (reportCount st + 1 <=? MAX_UINT256) = true)
    by (apply N.leb_le; unfold MAX_UINT256 in *; lia).
  rewrite E. reflexivity.
Qed.

Lemma submitInspectionReport_returned r h f fa l t (st st' : State) :
  submitInspectionReport r h f fa l t st = Returned tt st' →
  reportCount st < MAX_UINT256 ∧
  st' = log_event (ReportSubmitted (reportCount st + 1) t)
          (set_inspectionReport (reportCount st + 1)
             {| encryptedRestaurantId := r; encryptedHygieneScore := h;
                encryptedFoodSafetyScore := f; encryptedFacilityScore := fa;
                encryptedLocationCode := l; timestamp := t |}
             (set_reportCount (reportCount st + 1) st)).
Proof.
  intros Hrun.
  assert (Hlt : reportCount st < MAX_UINT256).
  { revert Hrun. tx_unfold. unfold checked_add.
    destruct (reportCount st + 1 <=? MAX_UINT256) eqn:E; [| discriminate].
    intros _. apply N.leb_le in E. unfold MAX_UINT256 in *. lia. }
  split; [exact Hlt |].
  rewrite (submitInspectionReport_returns _ _ _ _ _ _ _ Hlt) in Hrun. congruence.
Qed.

(** The counters, the reports and the identifiers announced, across
    every call that is neither a submission nor a risk resolution. *)
Lemma other_calls_keep_ids (c : Call) (st st' : State) :
  run c st = Returned tt st' →
  match c with
  | SubmitInspectionReport _ _ _ _ _ _ | CalculateRiskScore _ _ _ => True
  | _ =>
      reportCount st' = reportCount st ∧
      analysisCount st' = analysisCount st ∧
      inspectionReports st' = inspectionReports st ∧
      report_ids (emitted st') = report_ids (emitted st) ∧
      analysis_ids (emitted st') = analysis_ids (emitted st)
  end.
Proof.
  destruct c; simpl; try done; tx_unfold; intros Hrun; tx_cases; simpl;
    unfold report_ids, analysis_ids; rewrite ?omap_app, ?app_nil_r; done.
Qed.

Lemma sequential_initial : sequential initial.
Proof.
  split; try reflexivity.
  intros id. simpl. rewrite lookup_empty. split; [intros [? [=]] | lia].
Qed.

Lemma sequential_exec (st : State) (c : Call) :
  sequential st → sequential (exec st c).
Proof.
  intros [Hrep Han Hst]. unfold exec.
  destruct (run c st) as [[] st'|e st'] eqn:Hrun; [| by split].
  pose proof (other_calls_keep_ids c st st' Hrun) as Hother.
  destruct c; simpl in Hrun;
    try (destruct Hother as (E1 & E2 & E3 & E4 & E5);
         split; [rewrite E4, E1 | rewrite E5, E2 | intros id; rewrite E3, E1]; done).
  - apply submitInspectionReport_returned in Hrun as [_ ->].
    split; simpl; unfold report_ids, analysis_ids in *; rewrite ?omap_app; simpl.
    + by rewrite Hrep, ids_upto_succ.
    + by rewrite app_nil_r.
    + intros id. destruct (decide (reportCount st + 1 = id)) as [<-|Hne].
      * rewrite lookup_insert_eq. split; [lia | eauto].
      * rewrite lookup_insert_ne by done. rewrite Hst. lia.
  - apply calculateRiskScore_returned in Hrun
      as (? & ? & ? & ? & ? & ? & _ & _ & _ & _ & _ & _ & _ & _ & _ & ->).
    split; simpl; unfold report_ids, analysis_ids in *; rewrite ?omap_app; simpl.
    + by rewrite app_nil_r.
    + by rewrite Han, ids_upto_succ.
    + exact Hst.
Qed.

Lemma reachable_sequential (st : State) : reachable st → sequential st.
Proof.
  induction 1 as [|st c _ IH]; [apply sequential_initial | by apply sequential_exec].
Qed.

Lemma reachable_execs (st : State) (cs : list Call) :
  reachable st → reachable (execs st cs).
Proof.
  revert st. induction cs as [|c cs IH]; intros st Hst; simpl; [done |].
  apply IH. by constructor.
Qed.

End Identifiers.

(** ** Requests recording the target 0 *)

Section ZeroTarget.
Context {fhe : FHEVM}.

(** A call that obtains no request under [reqId] leaves the entries of
    [reqId] in both pending tables as they were. *)
Lemma exec_keeps_pending (st : State) (c : Call) (reqId : N) :
  issued c ≠ Some reqId →
  pendingReport (exec st c) reqId = pendingReport st reqId ∧
  pendingAnalysis (exec st c) reqId = pendingAnalysis st reqId.
Proof.
  intros Hc. unfold exec.
  destruct (run c st) as [[] st'|e st'] eqn:Hrun; [| done].
  unfold pendingReport, pendingAnalysis.
  rewrite (run_requestToReportId _ _ _ Hrun), (run_requestToAnalysisId _ _ _ Hrun).
  destruct c; simpl in Hc; try done;
    (split; [done || (apply sload_insert_ne; congruence)
            | done || (apply sload_insert_ne; congruence)]).
Qed.

Lemma execs_keep_pending (st : State) (cs : list Call) (reqId : N) :
  Forall (λ c, issued c ≠ Some reqId) cs →
  pendingReport (execs st cs) reqId = pendingReport st reqId ∧
  pendingAnalysis (execs st cs) reqId = pendingAnalysis st reqId.
Proof.
  intros Hcs. revert st. induction Hcs as [|c cs Hc _ IH]; intros st; simpl; [done |].
  destruct (IH (exec st c)) as [-> ->]. by apply exec_keeps_pending.
Qed.

End ZeroTarget.

(** C10. [requestRiskAnalysis(0)] returns in every state and records
    the target 0 for its request; [requestAreaStats(0)], where it
    returns, does the same. From then on, as long as the oracle does not
    hand out the same identifier again, every delivery of that request
    to its callback — and for the area request to [decryptAnalysis] too —
    fails the zero check with [UnknownOrReplayedRequest], whatever the
    payload and the proof. *)
Theorem C10_zero_target_never_resolves {fhe : FHEVM} (st : State) (reqId : N) :
  (∃ st', requestRiskAnalysis 0 reqId st = Returned tt st' ∧
     pendingReport st' reqId = 0 ∧
     ∀ cs, Forall (λ c, issued c ≠ Some reqId) cs →
       ∀ cleartexts proof,
         calculateRiskScore reqId cleartexts proof (execs st' cs)
           = Reverted UnknownOrReplayedRequest (execs st' cs)) ∧
  (∀ st', requestAreaStats 0 reqId st = Returned tt st' →
     pendingAnalysis st' reqId = 0 ∧
     ∀ cs, Forall (λ c, issued c ≠ Some reqId) cs →
       ∀ cleartexts proof,
         decryptAreaStats reqId cleartexts proof (execs st' cs)
           = Reverted UnknownOrReplayedRequest (execs st' cs) ∧
         decryptAnalysis reqId cleartexts proof (execs st' cs)
           = Reverted UnknownOrReplayedRequest (execs st' cs)).
Proof.
  split.
  - rewrite requestRiskAnalysis_zero.
    eexists. split; [reflexivity |].
    assert (Hzero : pendingReport (zero_dispatched reqId st) reqId = 0).
    { unfold pendingReport. simpl. apply sload_insert_eq. }
    split; [exact Hzero |].
    intros cs Hcs cleartexts proof.
    apply (callback_absent (CalculateRiskScore reqId cleartexts proof));
      [by eexists |].
    simpl. by rewrite (proj1 (execs_keep_pending _ cs reqId Hcs)).
  - intros st' Hrun.
    assert (Hzero : pendingAnalysis st' reqId = 0).
    { unfold pendingAnalysis.
      rewrite (run_requestToAnalysisId (RequestAreaStats 0 reqId) st st' Hrun).
      apply sload_insert_eq. }
    split; [exact Hzero |].
    intros cs Hcs cleartexts proof.
    pose proof (proj2 (execs_keep_pending st' cs reqId Hcs)) as Hkept.
    split.
    + apply (callback_absent (DecryptAreaStats reqId cleartexts proof));
        [by eexists |].
      simpl. by rewrite Hkept.
    + apply (callback_absent (DecryptAnalysis reqId cleartexts proof));
        [by eexists |].
      simpl. by rewrite Hkept.
Qed.

Lemma C10_zero_target_never_resolves_witness :
  requestAreaStats (fhe := Reference.fhevm) 0 12 Scenario.area_zero
    = Returned tt Scenario.area_zero_requested ∧
  pendingAnalysis Scenario.area_zero_requested 12 = 0 ∧
  decryptAreaStats (fhe := Reference.fhevm) 12 Scenario.area_payload
      (Reference.proof_for 12)
      (execs (fhe := Reference.fhevm) Scenario.area_zero_requested [Scenario.report])
    = Reverted UnknownOrReplayedRequest
        (execs (fhe := Reference.fhevm) Scenario.area_zero_requested [Scenario.report]).
Proof.
  assert (Hrun : requestAreaStats (fhe := Reference.fhevm) 0 12 Scenario.area_zero
                 = Returned tt Scenario.area_zero_requested)
    by (vm_compute; reflexivity).
  destruct (C10_zero_target_never_resolves (fhe := Reference.fhevm)
              Scenario.area_zero 12) as [_ Harea].
  destruct (Harea Scenario.area_zero_requested Hrun) as [Hzero Hnever].
  split; [exact Hrun |]. split; [exact Hzero |].
  apply (Hnever [Scenario.report]).
  repeat constructor. discriminate.
Defined.

Example report_zero_request_fails :
  run (fhe := Reference.fhevm) Scenario.resolve_risk Scenario.zero_requested
    = Reverted UnknownOrReplayedRequest Scenario.zero_requested.
Proof. vm_compute. reflexivity. Qed.

(** * Further properties of the contract *)

(** ** What each returning call does *)

Section Returned.
Context {fhe : FHEVM}.

Lemma requestRiskAnalysis_returned (reportId reqId : N) (st st' : State) :
  requestRiskAnalysis reportId reqId st = Returned tt st' →
  reportId ≤ reportCount st ∧
  st' = log_event (AnalysisRequested reportId)
          (set_requestToReportId reqId reportId
             (log_request (riskRequest st reportId reqId) st)).
Proof.
  tx_unfold. intros Hrun. tx_cases.
  match goal with E : (_ <=? _) = true |- _ => apply N.leb_le in E end. done.
Qed.

Lemma requestAnalysisDecryption_returned (analysisId reqId : N) (st st' : State) :
  requestAnalysisDecryption analysisId reqId st = Returned tt st' →
  analysisId ≤ analysisCount st ∧
  isRevealed (analysisAt st analysisId) = false ∧
  st' = set_requestToAnalysisId reqId analysisId
          (log_request (revealRequest st analysisId reqId) st).
Proof.
  tx_unfold. intros Hrun. tx_cases.
  match goal with E : (_ <=? _) = true |- _ => apply N.leb_le in E end.
  match goal with E : negb _ = true |- _ => apply negb_true_iff in E end. done.
Qed.

Lemma requestAreaStats_returned (locationCode reqId : N) (st st' : State) :
  requestAreaStats locationCode reqId st = Returned tt st' →
  encryptedAvgHygiene (areaAt st locationCode) ≠ asEuint32 0 ∧
  st' = set_requestToAnalysisId reqId locationCode
          (log_request (areaRequest st locationCode reqId) st).
Proof.
  tx_unfold. intros Hrun. tx_cases.
  match goal with E : negb _ = true |- _ => apply negb_true_iff, N.eqb_neq in E end.
  done.
Qed.

Lemma decryptAreaStats_returned (requestId : N) (cleartexts proof : bytes) (st st' : State) :
  decryptAreaStats requestId cleartexts proof st = Returned tt st' →
  to_uint32 (pendingAnalysis st requestId) ≠ 0 ∧
  checkSignatures requestId cleartexts proof = true ∧
  is_Some (abi_decode cleartexts) ∧
  st' = st.
Proof.
  tx_unfold. intros Hrun. tx_cases. neq_zero. done.
Qed.

(** Every returning call, by cases. *)
Lemma run_returned (c : Call) (st st' : State) :
  run c st = Returned tt st' →
  match c with
  | SubmitInspectionReport r h f fa l t =>
      reportCount st < MAX_UINT256 ∧
      st' = log_event (ReportSubmitted (reportCount st + 1) t)
              (set_inspectionReport (reportCount st + 1)
                 {| encryptedRestaurantId := r; encryptedHygieneScore := h;
                    encryptedFoodSafetyScore := f; encryptedFacilityScore := fa;
                    encryptedLocationCode := l; timestamp := t |}
                 (set_reportCount (reportCount st + 1) st))
  | RequestRiskAnalysis reportId reqId =>
      reportId ≤ reportCount st ∧
      st' = log_event (AnalysisRequested reportId)
              (set_requestToReportId reqId reportId
                 (log_request (riskRequest st reportId reqId) st))
  | CalculateRiskScore requestId cleartexts proof =>
      ∃ h loc r,
        pendingReport st requestId ≠ 0 ∧
        analysisCount st < MAX_UINT256 ∧
        st' = log_event (RiskIdentified (analysisCount st + 1))
                (set_areaStats loc (area_after (areaAt st loc) h r)
                   (set_riskAnalysis (analysisCount st + 1)
                      {| encryptedRiskScore := asEuint32 r;
                         encryptedPriorityLevel := asEuint32 (priorityLevel r);
                         isRevealed := false |}
                      (set_analysisCount (analysisCount st + 1) st)))
  | RequestAnalysisDecryption analysisId reqId =>
      analysisId ≤ analysisCount st ∧
      isRevealed (analysisAt st analysisId) = false ∧
      st' = set_requestToAnalysisId reqId analysisId
              (log_request (revealRequest st analysisId reqId) st)
  | DecryptAnalysis requestId cleartexts proof =>
      pendingAnalysis st requestId ≠ 0 ∧
      st' = log_event (AnalysisRevealed (pendingAnalysis st requestId))
              (set_riskAnalysis (pendingAnalysis st requestId)
                 {| encryptedRiskScore :=
                      encryptedRiskScore (analysisAt st (pendingAnalysis st requestId));
                    encryptedPriorityLevel :=
                      encryptedPriorityLevel (analysisAt st (pendingAnalysis st requestId));
                    isRevealed := true |} st)
  | RequestAreaStats locationCode reqId =>
      encryptedAvgHygiene (areaAt st locationCode) ≠ asEuint32 0 ∧
      st' = set_requestToAnalysisId reqId locationCode
              (log_request (areaRequest st locationCode reqId) st)
  | DecryptAreaStats requestId cleartexts proof => st' = st
  end.
Proof.
  destruct c; simpl; intros Hrun.
  - by apply submitInspectionReport_returned.
  - by apply requestRiskAnalysis_returned.
  - apply calculateRiskScore_returned in Hrun
      as (? & h & ? & ? & loc & r & ? & _ & _ & _ & _ & _ & _ & _ & ? & ->).
    by exists h, loc, r.
  - by apply requestAnalysisDecryption_returned.
  - by apply decryptAnalysis_returned in Hrun as (? & _ & _ & ->).
  - by apply requestAreaStats_returned.
  - by apply decryptAreaStats_returned in Hrun as (_ & _ & _ & ->).
Qed.

(** A step of [exec] either is a returning call or changes nothing. *)
Lemma exec_cases (st : State) (c : Call) :
  run c st = Returned tt (exec st c) ∨ exec st c = st.
Proof.
  unfold exec. destruct (run c st) as [[] st'|e st']; [by left | by right].
Qed.

End Returned.

(** ** Counters and stored entities over a run *)

Section Growth.
Context {fhe : FHEVM}.

Lemma exec_counts (st : State) (c : Call) :
  reportCount st ≤ reportCount (exec st c) ≤ reportCount st + 1 ∧
  analysisCount st ≤ analysisCount (exec st c) ≤ analysisCount st + 1.
Proof.
  destruct (exec_cases st c) as [Hrun | ->]; [| lia].
  apply run_returned in Hrun.
  destruct c; simpl in Hrun; peel Hrun;
    rewrite Hrun; simpl; lia.
Qed.

(** A call writes no report at an identifier already in use. *)
Lemma exec_keeps_report (st : State) (c : Call) (id : N) :
  id ≤ reportCount st → reportAt (exec st c) id = reportAt st id.
Proof.
  intros Hid.
  destruct (exec_cases st c) as [Hrun | ->]; [| done].
  apply run_returned in Hrun.
  destruct c; simpl in Hrun; peel Hrun;
    rewrite Hrun; unfold reportAt; simpl; try done.
  apply sload_insert_ne. lia.
Qed.

(** On an analysis in use a call changes at most the flag, upwards. *)
Lemma exec_keeps_analysis (st : State) (c : Call) (id : N) :
  id ≤ analysisCount st →
  encryptedRiskScore (analysisAt (exec st c) id) = encryptedRiskScore (analysisAt st id) ∧
  encryptedPriorityLevel (analysisAt (exec st c) id)
    = encryptedPriorityLevel (analysisAt st id) ∧
  (isRevealed (analysisAt st id) = true → isRevealed (analysisAt (exec st c) id) = true).
Proof.
  intros Hid.
  destruct (exec_cases st c) as [Hrun | ->]; [| done].
  apply run_returned in Hrun.
  destruct c; simpl in Hrun; peel Hrun;
    rewrite Hrun; unfold analysisAt; simpl; try done.
  - rewrite !sload_insert_ne by lia. done.
  - destruct (decide (sload 0 (requestToAnalysisId st) requestId = id)) as [<-|Hne].
    + rewrite !sload_insert_eq. done.
    + rewrite !sload_insert_ne by done. done.
Qed.

End Growth.

(** X1. The two counters never decrease, and a run of n calls raises each by
    at most n. *)
Theorem counts_only_grow {fhe : FHEVM} (st : State) (cs : list Call) :
  reportCount st ≤ reportCount (execs st cs) ≤ reportCount st + N.of_nat (length cs) ∧
  analysisCount st ≤ analysisCount (execs st cs)
    ≤ analysisCount st + N.of_nat (length cs).
Proof.
  revert st. induction cs as [|c cs IH]; intros st; simpl; [lia |].
  pose proof (exec_counts st c). pose proof (IH (exec st c)).
  unfold execs in *. lia.
Qed.

(** X2. A report, once stored, is never changed: whatever calls follow, the
    report at an identifier up to [reportCount] reads as before. *)
Theorem reports_are_immutable {fhe : FHEVM} (st : State) (cs : list Call) (id : N) :
  id ≤ reportCount st →
  reportAt (execs st cs) id = reportAt st id.
Proof.
  revert st. induction cs as [|c cs IH]; intros st Hid; simpl; [done |].
  unfold execs in *. rewrite IH.
  - by apply exec_keeps_report.
  - pose proof (exec_counts st c). lia.
Qed.

Lemma reports_are_immutable_witness :
  reportAt (execs (fhe := Reference.fhevm) Scenario.dispatched
              [Scenario.resolve_risk; Scenario.report; RequestRiskAnalysis 2 12]) 1
    = reportAt Scenario.dispatched 1.
Proof.
  exact (reports_are_immutable (fhe := Reference.fhevm)
           Scenario.dispatched _ 1 ltac:(vm_compute; discriminate)).
Defined.

(** X3. The encrypted risk score and priority of an analysis are never
    changed once it is created, and its revealed flag, once set, stays
    set, whatever calls follow. *)
Theorem analyses_change_only_by_reveal {fhe : FHEVM}
    (st : State) (cs : list Call) (id : N) :
  id ≤ analysisCount st →
  encryptedRiskScore (analysisAt (execs st cs) id) = encryptedRiskScore (analysisAt st id) ∧
  encryptedPriorityLevel (analysisAt (execs st cs) id)
    = encryptedPriorityLevel (analysisAt st id) ∧
  (isRevealed (analysisAt st id) = true →
   isRevealed (analysisAt (execs st cs) id) = true).
Proof.
  revert st. induction cs as [|c cs IH]; intros st Hid; simpl; [done |].
  unfold execs in *.
  destruct (exec_keeps_analysis st c id Hid) as (Hs & Hp & Hr).
  destruct (IH (exec st c)) as (Hs' & Hp' & Hr').
  { pose proof (exec_counts st c). lia. }
  rewrite Hs', Hp', Hs, Hp. auto.
Qed.

Lemma analyses_change_only_by_reveal_witness :
  encryptedRiskScore
    (analysisAt (execs (fhe := Reference.fhevm) Scenario.analysed
                   [RequestAnalysisDecryption 1 12;
                    DecryptAnalysis 12 Scenario.reveal_payload (Reference.proof_for 12);
                    Scenario.resolve_risk]) 1)
    = encryptedRiskScore (analysisAt Scenario.analysed 1).
Proof.
  exact (proj1 (analyses_change_only_by_reveal (fhe := Reference.fhevm)
                  Scenario.analysed _ 1 ltac:(vm_compute; discriminate))).
Defined.

(** ** Invariants of the tables *)

Section Consistency.
Context {fhe : FHEVM}.

Lemma consistent_initial : consistent initial.
Proof.
  split; unfold pendingReport, pendingAnalysis, analysisAt, sload;
    cbn [initial inspectionReports riskAnalyses requestToReportId
         requestToAnalysisId reportCount emitted requested].
  - apply lookup_empty.
  - apply lookup_empty.
  - intros r. rewrite lookup_empty. cbn [default]. lia.
  - intros r. rewrite lookup_empty. done.
  - intros r. rewrite lookup_empty. done.
  - intros id. rewrite lookup_empty. done.
Qed.

Lemma sload_insert {V} (d : V) (m : gmap N V) (k k' : N) (v : V) :
  sload d (<[k := v]> m) k' = if decide (k = k') then v else sload d m k'.
Proof.
  destruct (decide (k = k')) as [->|Hne];
    [apply sload_insert_eq | by apply sload_insert_ne].
Qed.

Lemma consistent_exec (st : State) (c : Call) :
  consistent st → consistent (exec st c).
Proof.
  intros [Hr0 Ha0 Hle Hrq Haq Hev].
  destruct (exec_cases st c) as [Hrun | ->]; [| by split].
  apply run_returned in Hrun.
  destruct c; simpl in Hrun; peel Hrun; rewrite Hrun;
    split; unfold pendingReport, pendingAnalysis, analysisAt in *; simpl;
    try done.
  - (* submitInspectionReport *)
    rewrite lookup_insert_ne; [done | lia].
  - intros r. specialize (Hle r). lia.
  - intros id Hid. apply elem_of_app. left. by apply Hev.
  - (* requestRiskAnalysis *)
    intros r. rewrite sload_insert. case_decide; [done | apply Hle].
  - intros r. rewrite sload_insert. case_decide as Heq.
    + intros _. exists (riskRequest st reportId reqId).
      split; [| by rewrite <- Heq]. apply elem_of_app. right. by apply list_elem_of_singleton.
    + intros Hnz. destruct (Hrq r Hnz) as (q & Hq & ?).
      exists q. split; [| done]. apply elem_of_app. by left.
  - intros r Hnz. destruct (Haq r Hnz) as (q & Hq & ?).
    exists q. split; [| done]. apply elem_of_app. by left.
  - intros id Hid. apply elem_of_app. left. by apply Hev.
  - (* calculateRiskScore *)
    rewrite lookup_insert_ne; [done | lia].
  - intros id. rewrite sload_insert. case_decide; [done |].
    intros Hid. apply elem_of_app. left. by apply Hev.
  - (* requestAnalysisDecryption *)
    intros r Hnz. destruct (Hrq r Hnz) as (q & Hq & ?).
    exists q. split; [| done]. apply elem_of_app. by left.
  - intros r. rewrite sload_insert. case_decide as Heq.
    + intros _. exists (revealRequest st analysisId reqId).
      split; [| by rewrite <- Heq]. apply elem_of_app. right. by apply list_elem_of_singleton.
    + intros Hnz. destruct (Haq r Hnz) as (q & Hq & ?).
      exists q. split; [| done]. apply elem_of_app. by left.
  - (* decryptAnalysis *)
    rewrite lookup_insert_ne; done.
  - intros id. rewrite sload_insert. case_decide as Heq.
    + intros _. apply elem_of_app. right. rewrite Heq. by apply list_elem_of_singleton.
    + intros Hid. apply elem_of_app. left. by apply Hev.
  - (* requestAreaStats *)
    intros r Hnz. destruct (Hrq r Hnz) as (q & Hq & ?).
    exists q. split; [| done]. apply elem_of_app. by left.
  - intros r. rewrite sload_insert. case_decide as Heq.
    + intros _. exists (areaRequest st locationCode reqId).
      split; [| by rewrite <- Heq]. apply elem_of_app. right. by apply list_elem_of_singleton.
    + intros Hnz. destruct (Haq r Hnz) as (q & Hq & ?).
      exists q. split; [| done]. apply elem_of_app. by left.
Qed.

Lemma reachable_consistent (st : State) : reachable st → consistent st.
Proof.
  induction 1 as [|st c _ IH]; [apply consistent_initial | by apply consistent_exec].
Qed.

End Consistency.

(** X4. Every non-zero entry of a pending table was put there by a dispatch:
    in every reachable state an entry of [requestToReportId] is at most
    [reportCount] and, if non-zero, its request was sent to the oracle
    with callback [calculateRiskScore]; a non-zero entry of
    [requestToAnalysisId] has a request sent with callback
    [decryptAnalysis] or [decryptAreaStats]. *)
Theorem pending_entries_were_dispatched {fhe : FHEVM} (st : State) (requestId : N) :
  reachable st →
  pendingReport st requestId ≤ reportCount st ∧
  (pendingReport st requestId ≠ 0 →
   ∃ q, q ∈ requested st ∧ req_id q = requestId ∧
        req_callback q = sel_calculateRiskScore) ∧
  (pendingAnalysis st requestId ≠ 0 →
   ∃ q, q ∈ requested st ∧ req_id q = requestId ∧
        (req_callback q = sel_decryptAnalysis ∨ req_callback q = sel_decryptAreaStats)).
Proof.
  intros Hreach. destruct (reachable_consistent st Hreach) as [_ _ Hle Hrq Haq _].
  split; [apply Hle |]. split; [apply Hrq |].
  intros Hnz. destruct (Haq requestId Hnz) as (q & Hq & Hid & Hcb).
  exists q. repeat split; try done. destruct (req_callback q); auto. done.
Qed.

Lemma reachable_area_requested : reachable (fhe := Reference.fhevm) Scenario.area_requested.
Proof.
  unfold Scenario.area_requested, Scenario.analysed, Scenario.dispatched.
  apply reachable_exec, reachable_exec, reachable_execs, reachable_initial.
Qed.

Lemma pending_entries_were_dispatched_witness :
  pendingReport Scenario.area_requested 11 ≤ reportCount Scenario.area_requested.
Proof.
  exact (proj1 (pending_entries_were_dispatched (fhe := Reference.fhevm)
                  Scenario.area_requested 11 reachable_area_requested)).
Defined.

(** X5. The identifier 0 is never used: in every reachable state the report
    and the analysis at 0 are the empty slot, and the revealed flag of 0
    is not set. *)
Theorem identifier_zero_is_never_used {fhe : FHEVM} (st : State) :
  reachable st →
  reportAt st 0 = zeroReport ∧
  analysisAt st 0 = zeroAnalysis ∧
  getAnalysisStatus st 0 = false.
Proof.
  intros Hreach. destruct (reachable_consistent st Hreach) as [Hr0 Ha0 _ _ _ _].
  unfold getAnalysisStatus, reportAt, analysisAt, sload. by rewrite Hr0, Ha0.
Qed.

Lemma identifier_zero_is_never_used_witness :
  analysisAt Scenario.area_requested 0 = zeroAnalysis.
Proof.
  exact (proj1 (proj2 (identifier_zero_is_never_used (fhe := Reference.fhevm)
                         Scenario.area_requested reachable_area_requested))).
Defined.

(** X6. A set revealed flag was announced: in every reachable state, if
    [getAnalysisStatus] answers true for an identifier then
    [AnalysisRevealed] was emitted for it. *)
Theorem revealed_flag_was_announced {fhe : FHEVM} (st : State) (analysisId : N) :
  reachable st →
  getAnalysisStatus st analysisId = true →
  AnalysisRevealed analysisId ∈ emitted st.
Proof.
  intros Hreach. destruct (reachable_consistent st Hreach) as [_ _ _ _ _ Hev].
  apply Hev.
Qed.

Lemma reachable_revealed : reachable (fhe := Reference.fhevm) Scenario.revealed.
Proof.
  unfold Scenario.revealed, Scenario.analysed, Scenario.dispatched.
  apply reachable_execs, reachable_exec, reachable_execs, reachable_initial.
Qed.

Lemma revealed_flag_was_announced_witness :
  AnalysisRevealed 1 ∈ emitted Scenario.revealed.
Proof.
  exact (revealed_flag_was_announced (fhe := Reference.fhevm) Scenario.revealed 1
           reachable_revealed ltac:(vm_compute; reflexivity)).
Defined.

(** X7. [requestAnalysisDecryption(0)] is accepted too: in every reachable
    state it returns and records the target 0, and from then on, as long
    as the oracle does not hand out the same identifier again, every
    delivery of that request to [decryptAnalysis] fails with
    [UnknownOrReplayedRequest]. *)
Theorem reveal_of_zero_never_resolves {fhe : FHEVM} (st : State) (reqId : N) :
  reachable st →
  ∃ st', requestAnalysisDecryption 0 reqId st = Returned tt st' ∧
    pendingAnalysis st' reqId = 0 ∧
    ∀ cs, Forall (λ c, issued c ≠ Some reqId) cs →
      ∀ cleartexts proof,
        decryptAnalysis reqId cleartexts proof (execs st' cs)
          = Reverted UnknownOrReplayedRequest (execs st' cs).
Proof.
  intros Hreach. destruct (reachable_consistent st Hreach) as [_ Ha0 _ _ _ _].
  assert (Hflag : isRevealed (analysisAt st 0) = false).
  { unfold analysisAt, sload. by rewrite Ha0. }
  assert (Hguard : (0 <=? analysisCount st) = true) by (apply N.leb_le; lia).
  eexists. split.
  { tx_unfold. rewrite Hguard. simpl. rewrite Hflag. reflexivity. }
  assert (Hzero : ∀ q, pendingAnalysis
                         (set_requestToAnalysisId reqId 0 (log_request q st)) reqId = 0).
  { intros q. unfold pendingAnalysis. simpl. apply sload_insert_eq. }
  split; [apply Hzero |].
  intros cs Hcs cleartexts proof.
  apply (callback_absent (DecryptAnalysis reqId cleartexts proof)); [by eexists |].
  simpl. rewrite (proj2 (execs_keep_pending _ cs reqId Hcs)). apply Hzero.
Qed.

Lemma reveal_of_zero_never_resolves_witness :
  ∃ st', requestAnalysisDecryption 0 13 Scenario.area_requested = Returned tt st' ∧
    pendingAnalysis st' 13 = 0 ∧
    decryptAnalysis (fhe := Reference.fhevm) 13 Scenario.reveal_payload
        (Reference.proof_for 13) (execs (fhe := Reference.fhevm) st' [Scenario.report])
      = Reverted UnknownOrReplayedRequest
          (execs (fhe := Reference.fhevm) st' [Scenario.report]).
Proof.
  destruct (reveal_of_zero_never_resolves (fhe := Reference.fhevm)
              Scenario.area_requested 13 reachable_area_requested)
    as (st' & Hrun & Hzero & Hnever).
  exists st'. split; [exact Hrun |]. split; [exact Hzero |].
  apply (Hnever [Scenario.report]). repeat constructor. discriminate.
Defined.

(** ** Payloads *)

(** X8. With a pending request, an accepted proof, a payload of four
    elements or more and room in the counter, [calculateRiskScore]
    fails with [Panic(0x11)] exactly when one of the three scores
    exceeds 100 (the subtraction from 100 underflows), and then nothing
    is written: the request stays pending and no analysis is created. *)
Theorem score_above_100_reverts {fhe : FHEVM}
    (requestId : N) (cleartexts proof : bytes) (st : State)
    (hygiene foodSafety facility locationCode : N) (rest : list N) :
  pendingReport st requestId ≠ 0 →
  checkSignatures requestId cleartexts proof = true →
  abi_decode cleartexts
    = Some (hygiene :: foodSafety :: facility :: locationCode :: rest) →
  analysisCount st < MAX_UINT256 →
  (100 < hygiene ∨ 100 < foodSafety ∨ 100 < facility) ↔
  calculateRiskScore requestId cleartexts proof st = Reverted ARITHMETIC st.
Proof.
  intros Hp Hsig Hdec Hn. split.
  - intros Hout. apply riskScore_out_of_range in Hout.
    tx_unfold. apply N.eqb_neq in Hp. rewrite Hp, Hsig, Hdec. simpl.
    rewrite Hout. reflexivity.
  - intros Hrun.
    destruct (decide (hygiene ≤ 100 ∧ foodSafety ≤ 100 ∧ facility ≤ 100))
      as [(Hh & Hfs & Hfa)|Hnot]; [| lia].
    rewrite (calculateRiskScore_returns requestId cleartexts proof st _
               hygiene foodSafety facility locationCode _ Hp Hsig Hdec
               eq_refl eq_refl eq_refl eq_refl
               (riskScore_in_range _ _ _ Hh Hfs Hfa) Hn) in Hrun.
    discriminate.
Qed.

Lemma score_above_100_reverts_witness :
  calculateRiskScore (fhe := Reference.fhevm) 11
      (Reference.abi_encode_uint32_array [101; 50; 50; 1]) (Reference.proof_for 11)
      Scenario.dispatched
    = Reverted ARITHMETIC Scenario.dispatched.
Proof.
  apply (score_above_100_reverts (fhe := Reference.fhevm) 11 _ _ Scenario.dispatched
           101 50 50 1 []);
    [vm_compute; discriminate | vm_compute; reflexivity | vm_compute; reflexivity
    | vm_compute; reflexivity | left; lia].
Defined.

(** X9. [calculateRiskScore] reads the first four elements of the payload
    and nothing else of it: a payload of fewer than four elements fails
    with [Panic(0x32)] and writes nothing, and two payloads that agree on
    their first four elements, each with an accepted proof, have the
    same outcome. *)
Theorem risk_payload_is_four_elements {fhe : FHEVM}
    (requestId : N) (cleartexts proof : bytes) (scores : list N) (st : State) :
  pendingReport st requestId ≠ 0 →
  checkSignatures requestId cleartexts proof = true →
  abi_decode cleartexts = Some scores →
  ((length scores < 4)%nat →
   calculateRiskScore requestId cleartexts proof st = Reverted OUT_OF_BOUNDS st) ∧
  (∀ cleartexts' proof' scores',
     checkSignatures requestId cleartexts' proof' = true →
     abi_decode cleartexts' = Some scores' →
     take 4 scores' = take 4 scores →
     calculateRiskScore requestId cleartexts' proof' st
       = calculateRiskScore requestId cleartexts proof st).
Proof.
  intros Hp Hsig Hdec. apply N.eqb_neq in Hp. split.
  - intros Hlen. tx_unfold. rewrite Hp, Hsig, Hdec. simpl.
    destruct scores as [|a [|b [|c [|d l]]]]; simpl in *; try reflexivity; lia.
  - intros cleartexts' proof' scores' Hsig' Hdec' Htake.
    tx_unfold. rewrite Hp, Hsig, Hsig', Hdec, Hdec'. simpl.
    rewrite <- !(lookup_take_lt scores' 4), <- !(lookup_take_lt scores 4) by lia.
    rewrite Htake. reflexivity.
Qed.

Lemma risk_payload_is_four_elements_witness :
  calculateRiskScore (fhe := Reference.fhevm) 11 Scenario.area_payload
      (Reference.proof_for 11) Scenario.dispatched
    = Reverted OUT_OF_BOUNDS Scenario.dispatched.
Proof.
  apply (risk_payload_is_four_elements (fhe := Reference.fhevm) 11
           Scenario.area_payload (Reference.proof_for 11) [50; 1] Scenario.dispatched);
    [vm_compute; discriminate | vm_compute; reflexivity | vm_compute; reflexivity
    | simpl; lia].
Defined.

(** X10. The two reveal callbacks decode the payload and then never use it:
    for the same request, two deliveries whose proofs get the same
    verdict and whose payloads both decode, or both fail to decode in
    the same way (both reverting without data, or both with
    [Panic(0x41)]), have the same outcome. The decrypted values are
    stored nowhere. *)
Theorem reveal_callbacks_ignore_payload {fhe : FHEVM}
    (requestId : N) (cleartexts1 proof1 cleartexts2 proof2 : bytes) (st : State) :
  checkSignatures requestId cleartexts1 proof1
    = checkSignatures requestId cleartexts2 proof2 →
  (is_Some (abi_decode cleartexts1) ↔ is_Some (abi_decode cleartexts2)) →
  (abi_decode cleartexts1 = None →
   abi_decode_panics cleartexts1 = abi_decode_panics cleartexts2) →
  decryptAnalysis requestId cleartexts1 proof1 st
    = decryptAnalysis requestId cleartexts2 proof2 st ∧
  decryptAreaStats requestId cleartexts1 proof1 st
    = decryptAreaStats requestId cleartexts2 proof2 st.
Proof.
  intros Hsig Hdec Hkind. tx_unfold. rewrite Hsig.
  destruct (abi_decode cleartexts1) as [l1|] eqn:E1,
           (abi_decode cleartexts2) as [l2|] eqn:E2.
  - split; repeat case_match; reflexivity.
  - destruct (proj1 Hdec) as [? [=]]. by eexists.
  - destruct (proj2 Hdec) as [? [=]]. by eexists.
  - rewrite (Hkind eq_refl). split; repeat case_match; reflexivity.
Qed.

Lemma reveal_callbacks_ignore_payload_witness :
  decryptAnalysis (fhe := Reference.fhevm) 12 Scenario.reveal_payload
      (Reference.proof_for 12) Scenario.area_requested
    = decryptAnalysis (fhe := Reference.fhevm) 12 Scenario.area_payload
        (Reference.proof_for 12) Scenario.area_requested.
Proof.
  apply (reveal_callbacks_ignore_payload (fhe := Reference.fhevm) 12
           Scenario.reveal_payload (Reference.proof_for 12)
           Scenario.area_payload (Reference.proof_for 12) Scenario.area_requested).
  - reflexivity.
  - split; intros _; vm_compute; eauto.
  - vm_compute. discriminate.
Defined.

(** The same for two payloads that do not decode: an empty one and one
    cut short both revert without data. *)
Example undecodable_payloads_fail_alike :
  decryptAnalysis (fhe := Reference.fhevm) 12 [] (Reference.proof_for 12)
      Scenario.area_requested
    = Reverted DecodeFailed Scenario.area_requested ∧
  decryptAnalysis (fhe := Reference.fhevm) 12 (Reference.word 32)
      (Reference.proof_for 12) Scenario.area_requested
    = Reverted DecodeFailed Scenario.area_requested.
Proof. split; vm_compute; reflexivity. Qed.

(** ** Dispatching *)

(** X11. A dispatch never touches the ledger: when [requestRiskAnalysis],
    [requestAnalysisDecryption] or [requestAreaStats] returns, the
    counters, the reports, the analyses and the area aggregates are as
    before, the entries of every other request in both pending tables
    are as before, and exactly one request, under the identifier the
    oracle answered, was sent. *)
Theorem dispatch_leaves_ledger {fhe : FHEVM} (c : Call) (reqId : N) (st st' : State) :
  issued c = Some reqId →
  run c st = Returned tt st' →
  reportCount st' = reportCount st ∧
  analysisCount st' = analysisCount st ∧
  inspectionReports st' = inspectionReports st ∧
  riskAnalyses st' = riskAnalyses st ∧
  areaStatistics st' = areaStatistics st ∧
  (∀ r, r ≠ reqId →
     pendingReport st' r = pendingReport st r ∧
     pendingAnalysis st' r = pendingAnalysis st r) ∧
  ∃ q, requested st' = requested st ++ [q] ∧ req_id q = reqId.
Proof.
  intros Hc Hrun. apply run_returned in Hrun.
  destruct c; simpl in Hc; try discriminate; injection Hc as ->;
    simpl in Hrun; peel Hrun; subst st'; simpl;
    unfold pendingReport, pendingAnalysis; simpl;
    repeat apply conj; try reflexivity; try (by eexists; split);
    intros r' Hr'; rewrite ?sload_insert_ne by done; done.
Qed.

Lemma dispatch_leaves_ledger_witness :
  riskAnalyses Scenario.area_requested = riskAnalyses Scenario.analysed ∧
  areaStatistics Scenario.area_requested = areaStatistics Scenario.analysed.
Proof.
  destruct (dispatch_leaves_ledger (fhe := Reference.fhevm) (RequestAreaStats 1 12) 12
              Scenario.analysed Scenario.area_requested eq_refl
              ltac:(vm_compute; reflexivity))
    as (_ & _ & _ & Han & Har & _).
  exact (conj Han Har).
Defined.

(** X12. A risk resolution writes one analysis and one aggregate and nothing
    else: when [calculateRiskScore] returns, the reports and their count,
    both pending tables and the requests sent are as before, as is every
    analysis but the new one and every area but the one named in the
    payload. *)
Theorem resolution_writes_one_analysis_one_area {fhe : FHEVM}
    (requestId : N) (cleartexts proof : bytes) (st st' : State)
    (hygiene foodSafety facility locationCode : N) (rest : list N) :
  abi_decode cleartexts
    = Some (hygiene :: foodSafety :: facility :: locationCode :: rest) →
  calculateRiskScore requestId cleartexts proof st = Returned tt st' →
  reportCount st' = reportCount st ∧
  inspectionReports st' = inspectionReports st ∧
  requestToReportId st' = requestToReportId st ∧
  requestToAnalysisId st' = requestToAnalysisId st ∧
  requested st' = requested st ∧
  (∀ id, id ≠ analysisCount st + 1 → analysisAt st' id = analysisAt st id) ∧
  (∀ code, code ≠ locationCode → areaAt st' code = areaAt st code).
Proof.
  intros Hdec Hrun.
  apply calculateRiskScore_returned in Hrun
    as (scores & h & fs & fa & loc & r & _ & _ & Hdec' & H0 & _ & _ & H3 & _ & _ & ->).
  rewrite Hdec in Hdec'. injection Hdec' as <-. simpl in H0, H3.
  injection H0 as <-. injection H3 as <-.
  unfold analysisAt, areaAt. simpl. repeat split.
  - intros id Hid. by apply sload_insert_ne.
  - intros code Hcode. by apply sload_insert_ne.
Qed.

Lemma resolution_writes_one_analysis_one_area_witness :
  inspectionReports Scenario.analysed = inspectionReports Scenario.dispatched ∧
  requestToReportId Scenario.analysed = requestToReportId Scenario.dispatched.
Proof.
  destruct (resolution_writes_one_analysis_one_area (fhe := Reference.fhevm)
              11 Scenario.risk_payload (Reference.proof_for 11)
              Scenario.dispatched Scenario.analysed 50 50 50 1 []
              ltac:(vm_compute; reflexivity) ltac:(vm_compute; reflexivity))
    as (_ & Hrep & Hpend & _).
  exact (conj Hrep Hpend).
Defined.

Section Forward.
Context {fhe : FHEVM}.

Lemma requestRiskAnalysis_returns (reportId reqId : N) (st : State) :
  reportId ≤ reportCount st →
  requestRiskAnalysis reportId reqId st
    = Returned tt
        (log_event (AnalysisRequested reportId)
           (set_requestToReportId reqId reportId
              (log_request (riskRequest st reportId reqId) st))).
Proof.
  intros Hle. tx_unfold. apply N.leb_le in Hle. rewrite Hle. reflexivity.
Qed.

Lemma requestAnalysisDecryption_returns (analysisId reqId : N) (st : State) :
  analysisId ≤ analysisCount st →
  isRevealed (analysisAt st analysisId) = false →
  requestAnalysisDecryption analysisId reqId st
    = Returned tt
        (set_requestToAnalysisId reqId analysisId
           (log_request (revealRequest st analysisId reqId) st)).
Proof.
  intros Hle Hflag. tx_unfold. apply N.leb_le in Hle.
  rewrite Hle. simpl. rewrite Hflag. reflexivity.
Qed.

Lemma decryptAnalysis_returns (requestId : N) (cleartexts proof : bytes) (st : State) :
  pendingAnalysis st requestId ≠ 0 →
  checkSignatures requestId cleartexts proof = true →
  is_Some (abi_decode cleartexts) →
  decryptAnalysis requestId cleartexts proof st
    = Returned tt
        (log_event (AnalysisRevealed (pendingAnalysis st requestId))
           (set_riskAnalysis (pendingAnalysis st requestId)
              {| encryptedRiskScore :=
                   encryptedRiskScore (analysisAt st (pendingAnalysis st requestId));
                 encryptedPriorityLevel :=
                   encryptedPriorityLevel (analysisAt st (pendingAnalysis st requestId));
                 isRevealed := true |} st)).
Proof.
  intros Hp Hsig [l Hdec]. tx_unfold. apply N.eqb_neq in Hp.
  rewrite Hp, Hsig, Hdec. reflexivity.
Qed.

Lemma requestAreaStats_returns (locationCode reqId : N) (st : State) :
  encryptedAvgHygiene (areaAt st locationCode) ≠ asEuint32 0 →
  requestAreaStats locationCode reqId st
    = Returned tt
        (set_requestToAnalysisId reqId locationCode
           (log_request (areaRequest st locationCode reqId) st)).
Proof.
  intros Hne. tx_unfold. apply N.eqb_neq in Hne. rewrite Hne. reflexivity.
Qed.

End Forward.

(** X13. The handles submitted are the ones sent for decryption: after a
    report is submitted, a risk analysis requested for the identifier it
    was given returns, sends the oracle the hygiene, food-safety,
    facility and location handles of that report in this order (and not
    the restaurant handle) and records the report under the request. *)
Theorem submitted_handles_are_requested (st : State)
    (restaurantId hygiene foodSafety facility locationCode : euint32)
    (time reqId : N) :
  reportCount st < MAX_UINT256 →
  ∃ st1 st2,
    submitInspectionReport restaurantId hygiene foodSafety facility locationCode time st
      = Returned tt st1 ∧
    requestRiskAnalysis (reportCount st + 1) reqId st1 = Returned tt st2 ∧
    requested st2
      = requested st ++
          [{| req_id := reqId;
              req_ciphertexts := [hygiene; foodSafety; facility; locationCode];
              req_callback := sel_calculateRiskScore |}] ∧
    pendingReport st2 reqId = reportCount st + 1 ∧
    emitted st2 = emitted st ++ [ReportSubmitted (reportCount st + 1) time;
                                 AnalysisRequested (reportCount st + 1)].
Proof.
  intros Hlt. eexists _, _. split.
  { by apply submitInspectionReport_returns. }
  split.
  { apply requestRiskAnalysis_returns. simpl. lia. }
  unfold pendingReport, riskRequest, reportAt, toBytes32. simpl.
  rewrite !sload_insert_eq. simpl. rewrite <- app_assoc. done.
Qed.

Lemma submitted_handles_are_requested_witness :
  ∃ st1 st2,
    submitInspectionReport 42 50 50 50 1 1000 initial
      = Returned tt st1 ∧
    requestRiskAnalysis (reportCount initial + 1) 11 st1 = Returned tt st2 ∧
    requested st2
      = requested initial ++
          [{| req_id := 11; req_ciphertexts := [50; 50; 50; 1];
              req_callback := sel_calculateRiskScore |}] ∧
    pendingReport st2 11 = reportCount initial + 1 ∧
    emitted st2 = emitted initial ++ [ReportSubmitted (reportCount initial + 1) 1000;
                                      AnalysisRequested (reportCount initial + 1)].
Proof.
  exact (submitted_handles_are_requested initial
           42 50 50 50 1 1000 11 ltac:(vm_compute; reflexivity)).
Defined.

(** X14. The whole lifecycle goes through: from any state with room in the
    counters, submitting a report, requesting its risk analysis,
    resolving it with in-range scores, requesting the reveal of the new
    analysis and resolving that, all return in this order. The analysis
    then holds the encryption of 300 minus the three scores and of its
    priority, its flag is set, and a further reveal request for it fails
    with [AlreadyRevealed]. *)
Theorem lifecycle_goes_through {fhe : FHEVM} (st : State)
    (restaurantId hygieneHandle foodSafetyHandle facilityHandle locationHandle : euint32)
    (time : N)
    (riskRequestId : N) (riskCleartexts riskProof : bytes)
    (hygiene foodSafety facility locationCode : N) (rest : list N)
    (revealRequestId : N) (revealCleartexts revealProof : bytes)
    (laterRequestId : N) :
  reportCount st < MAX_UINT256 →
  analysisCount st < MAX_UINT256 →
  checkSignatures riskRequestId riskCleartexts riskProof = true →
  abi_decode riskCleartexts
    = Some (hygiene :: foodSafety :: facility :: locationCode :: rest) →
  hygiene ≤ 100 → foodSafety ≤ 100 → facility ≤ 100 →
  checkSignatures revealRequestId revealCleartexts revealProof = true →
  is_Some (abi_decode revealCleartexts) →
  ∃ st',
    runs st
      [ SubmitInspectionReport restaurantId hygieneHandle foodSafetyHandle
          facilityHandle locationHandle time;
        RequestRiskAnalysis (reportCount st + 1) riskRequestId;
        CalculateRiskScore riskRequestId riskCleartexts riskProof;
        RequestAnalysisDecryption (analysisCount st + 1) revealRequestId;
        DecryptAnalysis revealRequestId revealCleartexts revealProof ]
      = Some st' ∧
    reportCount st' = reportCount st + 1 ∧
    analysisCount st' = analysisCount st + 1 ∧
    analysisAt st' (analysisCount st + 1)
      = {| encryptedRiskScore := asEuint32 (300 - hygiene - foodSafety - facility);
           encryptedPriorityLevel :=
             asEuint32 (priorityLevel (300 - hygiene - foodSafety - facility));
           isRevealed := true |} ∧
    requestAnalysisDecryption (analysisCount st + 1) laterRequestId st'
      = Reverted AlreadyRevealed st'.
Proof.
  intros Hrc Hac Hsig Hdec Hh Hfs Hfa Hsig' Hdec'.
  cbn [runs run].
  (* the report *)
  rewrite submitInspectionReport_returns by done.
  match goal with |- context [requestRiskAnalysis _ _ ?s] => set (st1 := s) end.
  assert (Hrc1 : reportCount st1 = reportCount st + 1) by reflexivity.
  assert (Hac1 : analysisCount st1 = analysisCount st) by reflexivity.
  clearbody st1.
  (* the risk request *)
  rewrite requestRiskAnalysis_returns by lia.
  match goal with |- context [calculateRiskScore _ _ _ ?s] => set (st2 := s) end.
  assert (Hp2 : pendingReport st2 riskRequestId = reportCount st + 1).
  { unfold pendingReport. simpl. apply sload_insert_eq. }
  assert (Hrc2 : reportCount st2 = reportCount st + 1) by exact Hrc1.
  assert (Hac2 : analysisCount st2 = analysisCount st) by exact Hac1.
  clearbody st2.
  (* its resolution *)
  erewrite calculateRiskScore_returns;
    [| | exact Hsig | exact Hdec | reflexivity | reflexivity | reflexivity | reflexivity
     | by apply riskScore_in_range | lia].
  2: { lia. }
  match goal with |- context [requestAnalysisDecryption _ _ ?s] => set (st3 := s) end.
  assert (Hrc3 : reportCount st3 = reportCount st + 1) by exact Hrc2.
  assert (Hac3 : analysisCount st3 = analysisCount st + 1).
  { simpl. by rewrite Hac2. }
  assert (Han3 : analysisAt st3 (analysisCount st + 1)
                 = {| encryptedRiskScore := asEuint32 (300 - hygiene - foodSafety - facility);
                      encryptedPriorityLevel :=
                        asEuint32 (priorityLevel (300 - hygiene - foodSafety - facility));
                      isRevealed := false |}).
  { unfold analysisAt. simpl. rewrite Hac2. apply sload_insert_eq. }
  clearbody st3.
  (* the reveal request *)
  rewrite requestAnalysisDecryption_returns by (rewrite ?Han3; (lia || done)).
  match goal with |- context [decryptAnalysis _ _ _ ?s] => set (st4 := s) end.
  assert (Hrc4 : reportCount st4 = reportCount st + 1) by exact Hrc3.
  assert (Hac4 : analysisCount st4 = analysisCount st + 1) by exact Hac3.
  assert (Han4 : analysisAt st4 (analysisCount st + 1)
                 = analysisAt st3 (analysisCount st + 1)) by reflexivity.
  assert (Hp4 : pendingAnalysis st4 revealRequestId = analysisCount st + 1).
  { unfold pendingAnalysis. simpl. apply sload_insert_eq. }
  clearbody st4.
  (* its resolution *)
  rewrite decryptAnalysis_returns by (rewrite ?Hp4; (lia || done)).
  rewrite Hp4, Han4, Han3. simpl.
  eexists. split; [reflexivity |].
  assert (Hflag : analysisAt
            (log_event (AnalysisRevealed (analysisCount st + 1))
               (set_riskAnalysis (analysisCount st + 1)
                  {| encryptedRiskScore := asEuint32 (300 - hygiene - foodSafety - facility);
                     encryptedPriorityLevel :=
                       asEuint32 (priorityLevel (300 - hygiene - foodSafety - facility));
                     isRevealed := true |} st4))
            (analysisCount st + 1)
          = {| encryptedRiskScore := asEuint32 (300 - hygiene - foodSafety - facility);
               encryptedPriorityLevel :=
                 asEuint32 (priorityLevel (300 - hygiene - foodSafety - facility));
               isRevealed := true |}).
  { unfold analysisAt. simpl. apply sload_insert_eq. }
  split; [exact Hrc4 |]. split; [exact Hac4 |]. split; [exact Hflag |].
  apply requestAnalysisDecryption_already_revealed.
  - simpl. lia.
  - unfold getAnalysisStatus. by rewrite Hflag.
Qed.

Lemma lifecycle_goes_through_witness :
  ∃ st',
    runs (fhe := Reference.fhevm) initial
      [ SubmitInspectionReport 42 50 50 50 1 1000;
        RequestRiskAnalysis (reportCount initial + 1) 11;
        CalculateRiskScore 11 Scenario.risk_payload (Reference.proof_for 11);
        RequestAnalysisDecryption (analysisCount initial + 1) 12;
        DecryptAnalysis 12 Scenario.reveal_payload (Reference.proof_for 12) ]
      = Some st' ∧
    reportCount st' = reportCount initial + 1 ∧
    analysisCount st' = analysisCount initial + 1 ∧
    analysisAt st' (analysisCount initial + 1)
      = {| encryptedRiskScore := @asEuint32 Reference.fhevm (300 - 50 - 50 - 50);
           encryptedPriorityLevel :=
             @asEuint32 Reference.fhevm (priorityLevel (300 - 50 - 50 - 50));
           isRevealed := true |} ∧
    requestAnalysisDecryption (analysisCount initial + 1) 13 st'
      = Reverted AlreadyRevealed st'.
Proof.
  exact (lifecycle_goes_through (fhe := Reference.fhevm) initial 42 50 50 50 1 1000
           11 Scenario.risk_payload (Reference.proof_for 11) 50 50 50 1 []
           12 Scenario.reveal_payload (Reference.proof_for 12) 13
           ltac:(vm_compute; reflexivity) ltac:(vm_compute; reflexivity)
           ltac:(vm_compute; reflexivity) ltac:(vm_compute; reflexivity)
           ltac:(lia) ltac:(lia) ltac:(lia)
           ltac:(vm_compute; reflexivity) ltac:(vm_compute; eauto)).
Defined.

(** ** Area aggregates over many resolutions *)

Lemma high_risk_total_cons (x : Scores) (xs : list Scores) :
  high_risk_total (x :: xs) = (if high_risk x then 1 else 0) + high_risk_total xs.
Proof.
  unfold high_risk_total. rewrite filter_cons.
  destruct (decide (high_risk x = true)) as [->|Hne]; simpl; [lia |].
  destruct (high_risk x); [done | lia].
Qed.

Lemma runs_cons {fhe : FHEVM} (st st' : State) (c : Call) (cs : list Call) :
  runs st (c :: cs) = Some st' →
  ∃ st1, run c st = Returned tt st1 ∧ runs st1 cs = Some st'.
Proof.
  simpl. destruct (run c st) as [[] st1|e st1]; [| discriminate]. eauto.
Qed.

Section Totals.
Context {fhe : FHEVM} (decrypt : euint32 → N) (Hhom : homomorphic decrypt).

Lemma area_totals_from (locationCode : N) (cs : list Call) (xs : list Scores) :
  Forall2 (resolution_for locationCode) cs xs →
  ∀ st st' S K,
    decrypt (encryptedAvgHygiene (areaAt st locationCode)) = S →
    decrypt (encryptedRiskCount (areaAt st locationCode)) = K →
    K ≤ S →
    Forall (λ x, 1 ≤ hygiene_of x) xs →
    S + hygiene_total xs ≤ MAX_UINT32 →
    runs st cs = Some st' →
    decrypt (encryptedAvgHygiene (areaAt st' locationCode)) = S + hygiene_total xs ∧
    decrypt (encryptedRiskCount (areaAt st' locationCode)) = K + high_risk_total xs.
Proof.
  induction 1 as [|c x cs xs Hc _ IH]; intros st st' S K HS HK HKS Hpos Hsum Hruns.
  - injection Hruns as <-. unfold hygiene_total, high_risk_total. simpl.
    rewrite HS, HK. lia.
  - destruct Hc as (requestId & cleartexts & proof & rest & -> & Hdec).
    apply runs_cons in Hruns as (st1 & Hrun & Hruns). simpl in Hrun.
    destruct (calculateRiskScore_area _ _ _ _ _ _ _ _ _ _ Hdec Hrun)
      as (k & Hk & Harea & _).
    apply Forall_cons in Hpos as [Hx Hpos].
    unfold hygiene_of in Hx.
    change (hygiene_total (x :: xs)) with (x.1.1 + hygiene_total xs) in *.
    unfold MAX_UINT32 in Hsum.
    destruct (decrypt_area_after decrypt Hhom (areaAt st locationCode) x.1.1 k)
      as [Havg Hcnt].
    { unfold MAX_UINT32. lia. }
    { rewrite HS, HK. lia. }
    rewrite <- Harea, HS in Havg. rewrite <- Harea, HK in Hcnt.
    unfold to_uint32 in Havg, Hcnt.
    rewrite N.mod_small in Havg by lia.
    assert (Hcnt' : decrypt (encryptedRiskCount (areaAt st1 locationCode))
                    = K + (if high_risk x then 1 else 0)).
    { unfold high_risk. rewrite Hk, Hcnt.
      destruct (100 <? k); [rewrite N.mod_small by lia |]; lia. }
    assert (HKS' : K + (if high_risk x then 1 else 0) ≤ S + x.1.1)
      by (destruct (high_risk x); lia).
    assert (Hsum' : S + x.1.1 + hygiene_total xs ≤ MAX_UINT32)
      by (unfold MAX_UINT32; lia).
    destruct (IH st1 st' _ _ Havg Hcnt' HKS' Hpos Hsum' Hruns) as [Havg' Hfinal].
    rewrite Havg', Hfinal, high_risk_total_cons. lia.
Qed.

End Totals.

(** X15. Area aggregates add up over any number of resolutions. Starting from
    no aggregate for a location code, after a sequence of returning risk
    resolutions for that code with hygiene scores of at least 1 that sum
    to less than 2^32, the hygiene sum of the area decrypts to the sum of
    the scores and its count to the number of resolutions whose risk
    score exceeds 100, for every library with homomorphic handles. *)
Theorem area_totals {fhe : FHEVM} (decrypt : euint32 → N) (st st' : State)
    (locationCode : N) (cs : list Call) (xs : list Scores) :
  homomorphic decrypt →
  areaAt st locationCode = zeroAreaStats →
  Forall2 (resolution_for locationCode) cs xs →
  Forall (λ x, 1 ≤ hygiene_of x) xs →
  hygiene_total xs ≤ MAX_UINT32 →
  runs st cs = Some st' →
  decrypt (encryptedAvgHygiene (areaAt st' locationCode)) = hygiene_total xs ∧
  decrypt (encryptedRiskCount (areaAt st' locationCode)) = high_risk_total xs.
Proof.
  intros Hhom Hfresh Hcs Hpos Hsum Hruns.
  assert (Hz : decrypt 0 = 0) by apply Hhom.
  destruct (area_totals_from decrypt Hhom locationCode cs xs Hcs st st' 0 0)
    as [Havg Hcnt]; try done.
  - by rewrite Hfresh.
  - by rewrite Hfresh.
Qed.

Lemma area_totals_witness :
  ∃ st',
    runs (fhe := Reference.fhevm) Scenario.two_dispatched
      [Scenario.resolve_70; Scenario.resolve_90] = Some st' ∧
    encryptedAvgHygiene (areaAt st' 5) = hygiene_total [(70, 60, 60); (90, 90, 90)] ∧
    encryptedRiskCount (areaAt st' 5) = high_risk_total [(70, 60, 60); (90, 90, 90)].
Proof.
  eexists. split; [vm_compute; reflexivity |].
  apply (area_totals (fhe := Reference.fhevm) (λ h, h) Scenario.two_dispatched _ 5
           [Scenario.resolve_70; Scenario.resolve_90] [(70, 60, 60); (90, 90, 90)]).
  - exact reference_homomorphic.
  - vm_compute. reflexivity.
  - repeat constructor; eexists _, _, _, []; (split; [reflexivity |]);
      vm_compute; reflexivity.
  - repeat constructor; unfold hygiene_of; simpl; lia.
  - vm_compute. discriminate.
  - vm_compute. reflexivity.
Defined.

(** X16. Once an area has received a hygiene score of at least 1, its
    statistics can be requested: after a returning risk resolution on an
    area with no aggregate, [requestAreaStats] for that area returns,
    sends the two handles of the aggregate and records the location code
    under the request, for every library with homomorphic handles. *)
Theorem area_request_after_contribution {fhe : FHEVM} (decrypt : euint32 → N)
    (requestId : N) (cleartexts proof : bytes) (st st' : State)
    (hygiene foodSafety facility locationCode : N) (rest : list N) (reqId : N) :
  homomorphic decrypt →
  areaAt st locationCode = zeroAreaStats →
  abi_decode cleartexts
    = Some (hygiene :: foodSafety :: facility :: locationCode :: rest) →
  1 ≤ hygiene →
  calculateRiskScore requestId cleartexts proof st = Returned tt st' →
  ∃ st'',
    requestAreaStats locationCode reqId st' = Returned tt st'' ∧
    pendingAnalysis st'' reqId = locationCode ∧
    requested st''
      = requested st' ++
          [{| req_id := reqId;
              req_ciphertexts := [encryptedAvgHygiene (areaAt st' locationCode);
                                  encryptedRiskCount (areaAt st' locationCode)];
              req_callback := sel_decryptAreaStats |}].
Proof.
  intros Hhom Hfresh Hdec Hpos Hrun.
  destruct (calculateRiskScore_area _ _ _ _ _ _ _ _ _ _ Hdec Hrun)
    as (k & Hk & Harea & _).
  assert (Hle : hygiene ≤ 100).
  { destruct (decide (hygiene ≤ 100)) as [|Hgt]; [done |].
    rewrite riskScore_out_of_range in Hk by lia. discriminate. }
  assert (Hz : decrypt 0 = 0) by apply Hhom.
  destruct (decrypt_area_after decrypt Hhom (areaAt st locationCode) hygiene k)
    as [Havg _].
  { unfold MAX_UINT32. lia. }
  { right. by rewrite Hfresh. }
  rewrite <- Harea, Hfresh in Havg. simpl in Havg. rewrite Hz in Havg.
  unfold to_uint32 in Havg. rewrite N.mod_small in Havg by lia.
  assert (Hne : encryptedAvgHygiene (areaAt st' locationCode) ≠ asEuint32 0).
  { intros Heq. rewrite Heq in Havg.
    rewrite (decrypt_asEuint32 decrypt Hhom 0) in Havg by (unfold MAX_UINT32; lia).
    lia. }
  eexists. split; [by apply requestAreaStats_returns |].
  unfold pendingAnalysis. simpl. rewrite sload_insert_eq. done.
Qed.

Lemma area_request_after_contribution_witness :
  ∃ st'',
    requestAreaStats (fhe := Reference.fhevm) 1 12 Scenario.analysed = Returned tt st'' ∧
    pendingAnalysis st'' 12 = 1 ∧
    requested st''
      = requested Scenario.analysed ++
          [{| req_id := 12;
              req_ciphertexts := [encryptedAvgHygiene (areaAt Scenario.analysed 1);
                                  encryptedRiskCount (areaAt Scenario.analysed 1)];
              req_callback := sel_decryptAreaStats |}].
Proof.
  exact (area_request_after_contribution (fhe := Reference.fhevm) (λ h, h)
           11 Scenario.risk_payload (Reference.proof_for 11)
           Scenario.dispatched Scenario.analysed 50 50 50 1 [] 12
           reference_homomorphic
           ltac:(vm_compute; reflexivity) ltac:(vm_compute; reflexivity)
           ltac:(lia) ltac:(vm_compute; reflexivity)).
Defined.

(** X17. The creation test of an aggregate looks at the hygiene sum only: a
    resolution that finds the sum handle equal to the encryption of zero
    starts the aggregate again, so the high-risk count after it is 1 or
    0 by its own risk score, whatever the count was before. *)
Theorem zero_sum_restarts_count {fhe : FHEVM} (decrypt : euint32 → N)
    (requestId : N) (cleartexts proof : bytes) (st st' : State)
    (hygiene foodSafety facility locationCode : N) (rest : list N) :
  homomorphic decrypt →
  encryptedAvgHygiene (areaAt st locationCode) = asEuint32 0 →
  abi_decode cleartexts
    = Some (hygiene :: foodSafety :: facility :: locationCode :: rest) →
  calculateRiskScore requestId cleartexts proof st = Returned tt st' →
  ∃ r, riskScore hygiene foodSafety facility = Some r ∧
       decrypt (encryptedRiskCount (areaAt st' locationCode))
         = if 100 <? r then 1 else 0.
Proof.
  intros Hhom Hzero Hdec Hrun.
  destruct (calculateRiskScore_area _ _ _ _ _ _ _ _ _ _ Hdec Hrun)
    as (k & Hk & Harea & _).
  exists k. split; [done |].
  rewrite Harea. unfold area_after. rewrite Hzero, N.eqb_refl. simpl.
  destruct Hhom as [Henc Hadd _].
  destruct (100 <? k).
  - rewrite Hadd, !Henc by (unfold MAX_UINT32; lia). reflexivity.
  - apply Henc. unfold MAX_UINT32. lia.
Qed.

Lemma zero_sum_restarts_count_witness :
  encryptedRiskCount (areaAt MoreScenarios.zero_hygiene_once 5) = 1 ∧
  ∃ r, riskScore 0 60 60 = Some r ∧
       encryptedRiskCount
         (areaAt (exec (fhe := Reference.fhevm) MoreScenarios.zero_hygiene_once
                    MoreScenarios.resolve_zero_hygiene_again) 5)
         = if 100 <? r then 1 else 0.
Proof.
  split; [vm_compute; reflexivity |].
  exact (zero_sum_restarts_count (fhe := Reference.fhevm) (λ h, h)
           12 (Reference.abi_encode_uint32_array [0; 60; 60; 5]) (Reference.proof_for 12)
           MoreScenarios.zero_hygiene_once
           (exec (fhe := Reference.fhevm) MoreScenarios.zero_hygiene_once
              MoreScenarios.resolve_zero_hygiene_again)
           0 60 60 5 []
           reference_homomorphic
           ltac:(vm_compute; reflexivity) ltac:(vm_compute; reflexivity)
           ltac:(vm_compute; reflexivity)).
Defined.

(** X18. For an area that never received a score, [requestAreaStats] compares
    the empty handle with the encryption of zero: it fails with
    [NoDataForArea] exactly when the library encrypts zero to the empty
    handle, and otherwise it returns and requests the decryption of the
    two empty handles. *)
Theorem no_data_guard_is_the_zero_handle {fhe : FHEVM}
    (locationCode reqId : N) (st : State) :
  areaAt st locationCode = zeroAreaStats →
  (asEuint32 0 = 0 ↔
   requestAreaStats locationCode reqId st = Reverted NoDataForArea st) ∧
  (asEuint32 0 ≠ 0 →
   ∃ st', requestAreaStats locationCode reqId st = Returned tt st' ∧
          requested st'
            = requested st ++ [{| req_id := reqId; req_ciphertexts := [0; 0];
                                  req_callback := sel_decryptAreaStats |}]).
Proof.
  intros Hfresh. split; [split |].
  - intros Hz. tx_unfold. rewrite Hfresh. simpl. rewrite Hz. reflexivity.
  - intros Hrun. destruct (decide (asEuint32 0 = 0)) as [|Hne]; [done |].
    rewrite requestAreaStats_returns in Hrun; [discriminate |].
    rewrite Hfresh. simpl. congruence.
  - intros Hne. eexists. split.
    + apply requestAreaStats_returns. rewrite Hfresh. simpl. congruence.
    + unfold areaRequest, toBytes32. simpl. by rewrite Hfresh.
Qed.

Lemma no_data_guard_is_the_zero_handle_witness :
  requestAreaStats (fhe := Reference.fhevm) 9 12 Scenario.analysed
    = Reverted NoDataForArea Scenario.analysed.
Proof.
  apply (no_data_guard_is_the_zero_handle (fhe := Reference.fhevm) 9 12 Scenario.analysed
           ltac:(vm_compute; reflexivity)).
  reflexivity.
Defined.

(** ** Priority *)

(** X19. Better scores never raise the priority: for two in-range score
    triples, the second at least as good on every axis, the second risk
    score is at most the first, both are at most 300, and the second
    priority level is at most the first; a priority level is 1, 2 or 3. *)
Theorem better_scores_never_raise_priority
    (hygiene foodSafety facility hygiene' foodSafety' facility' : N) :
  hygiene ≤ hygiene' ≤ 100 →
  foodSafety ≤ foodSafety' ≤ 100 →
  facility ≤ facility' ≤ 100 →
  ∃ r r',
    riskScore hygiene foodSafety facility = Some r ∧
    riskScore hygiene' foodSafety' facility' = Some r' ∧
    r' ≤ r ≤ 300 ∧
    1 ≤ priorityLevel r' ≤ priorityLevel r ∧
    priorityLevel r ≤ 3.
Proof.
  intros Hh Hfs Hfa.
  exists (300 - hygiene - foodSafety - facility),
         (300 - hygiene' - foodSafety' - facility').
  rewrite !riskScore_in_range by lia.
  split; [done |]. split; [done |]. split; [lia |].
  unfold priorityLevel.
  repeat match goal with
         | |- context [?a <? ?b] => destruct (N.ltb_spec a b)
         end; lia.
Qed.

Lemma better_scores_never_raise_priority_witness :
  ∃ r r',
    riskScore 40 30 20 = Some r ∧ riskScore 90 85 80 = Some r' ∧
    r' ≤ r ≤ 300 ∧ 1 ≤ priorityLevel r' ≤ priorityLevel r ∧ priorityLevel r ≤ 3.
Proof.
  exact (better_scores_never_raise_priority 40 30 20 90 85 80
           ltac:(lia) ltac:(lia) ltac:(lia)).
Defined.

(** ** Who writes the flag and the aggregates *)

(** X20. The revealed flag of an identifier goes from false to true only in a
    [decryptAnalysis] call with an accepted proof whose request reads
    that identifier, which is not 0, from [requestToAnalysisId]; no
    other entry point sets it. *)
Theorem flag_set_only_by_decryptAnalysis {fhe : FHEVM} (c : Call) (st : State) (id : N) :
  getAnalysisStatus st id = false →
  getAnalysisStatus (exec st c) id = true →
  ∃ requestId cleartexts proof,
    c = DecryptAnalysis requestId cleartexts proof ∧
    pendingAnalysis st requestId = id ∧ id ≠ 0 ∧
    checkSignatures requestId cleartexts proof = true.
Proof. apply revealed_only_by_decryptAnalysis. Qed.

Lemma flag_set_only_by_decryptAnalysis_witness :
  ∃ requestId cleartexts proof,
    DecryptAnalysis 12 Scenario.reveal_payload (Reference.proof_for 12)
      = DecryptAnalysis requestId cleartexts proof ∧
    pendingAnalysis MoreScenarios.reveal_requested requestId = 1 ∧ 1 ≠ 0 ∧
    checkSignatures (FHEVM := Reference.fhevm) requestId cleartexts proof = true.
Proof.
  exact (flag_set_only_by_decryptAnalysis (fhe := Reference.fhevm)
           (DecryptAnalysis 12 Scenario.reveal_payload (Reference.proof_for 12))
           MoreScenarios.reveal_requested 1
           ltac:(vm_compute; reflexivity) ltac:(vm_compute; reflexivity)).
Defined.

(** X21. Only [calculateRiskScore] writes area aggregates: a sequence of
    calls with no risk resolution among them, returning or failing,
    leaves every aggregate exactly as it was. *)
Theorem aggregates_written_only_by_resolution {fhe : FHEVM} (st : State) (cs : list Call) :
  Forall (λ c, ∀ requestId cleartexts proof,
               c ≠ CalculateRiskScore requestId cleartexts proof) cs →
  areaStatistics (execs st cs) = areaStatistics st.
Proof.
  intros Hcs. revert st. induction Hcs as [|c cs Hc _ IH]; intros st; simpl; [done |].
  unfold execs in *. rewrite IH. by apply areaStatistics_kept.
Qed.

Lemma aggregates_written_only_by_resolution_witness :
  areaStatistics
    (execs (fhe := Reference.fhevm) Scenario.analysed
       [Scenario.report; RequestAreaStats 1 12;
        DecryptAreaStats 12 Scenario.area_payload (Reference.proof_for 12)])
    = areaStatistics Scenario.analysed.
Proof.
  apply (aggregates_written_only_by_resolution (fhe := Reference.fhevm)).
  repeat constructor; intros requestId cleartexts proof; discriminate.
Defined.

(** ** The report count *)

(** X22. [getReportCount] is the number of reports submitted: in every
    reachable state it equals the number of [ReportSubmitted] events,
    and the last of them, if any, announced the identifier it returns. *)
Theorem report_count_counts_submissions {fhe : FHEVM} (st : State) :
  reachable st →
  getReportCount st = N.of_nat (length (report_ids (emitted st))) ∧
  (getReportCount st ≠ 0 → last (report_ids (emitted st)) = Some (getReportCount st)).
Proof.
  intros Hreach. destruct (reachable_sequential st Hreach) as [Hrep _ _].
  unfold getReportCount. rewrite Hrep. split.
  - unfold ids_upto. rewrite length_fmap, length_seq. lia.
  - intros Hnz.
    replace (reportCount st) with (reportCount st - 1 + 1) at 1 by lia.
    rewrite ids_upto_succ, last_snoc. f_equal. lia.
Qed.

Lemma report_count_counts_submissions_witness :
  getReportCount Scenario.area_requested
    = N.of_nat (length (report_ids (emitted Scenario.area_requested))).
Proof.
  exact (proj1 (report_count_counts_submissions (fhe := Reference.fhevm)
                  Scenario.area_requested reachable_area_requested)).
Defined.

(** ** Where analyses are stored *)

Section AnalysesInPlace.
Context {fhe : FHEVM}.

Lemma analyses_in_place_initial : analyses_in_place initial.
Proof.
  split; unfold analysisAt, sload;
    cbn [initial riskAnalyses analysisCount].
  - intros id Hid. lia.
  - apply lookup_empty.
  - intros id _. by rewrite lookup_empty.
Qed.

Lemma analyses_in_place_exec (st : State) (c : Call) :
  analyses_in_place st → analyses_in_place (exec st c).
Proof.
  intros [Hstored Hzero Hbeyond].
  destruct (exec_cases st c) as [Hrun | ->]; [| by split].
  apply run_returned in Hrun.
  destruct c; simpl in Hrun; peel Hrun; rewrite Hrun;
    split; unfold analysisAt in *; simpl; try done.
  - (* calculateRiskScore *)
    intros id Hid. destruct (decide (analysisCount st + 1 = id)) as [<-|Hne].
    + rewrite lookup_insert_eq. by eexists.
    + rewrite lookup_insert_ne by done. apply Hstored. lia.
  - rewrite lookup_insert_ne; [done | lia].
  - intros id Hid. rewrite sload_insert_ne by lia. apply Hbeyond. lia.
  - (* decryptAnalysis *)
    intros id Hid.
    destruct (decide (sload 0 (requestToAnalysisId st) requestId = id)) as [<-|Hne].
    + rewrite lookup_insert_eq. by eexists.
    + rewrite lookup_insert_ne by done. by apply Hstored.
  - rewrite lookup_insert_ne; done.
  - intros id Hid.
    destruct (decide (sload 0 (requestToAnalysisId st) requestId = id)) as [<-|Hne].
    + rewrite sload_insert_eq. simpl. by apply Hbeyond.
    + rewrite sload_insert_ne by done. by apply Hbeyond.
Qed.

Lemma reachable_analyses_in_place (st : State) : reachable st → analyses_in_place st.
Proof.
  induction 1 as [|st c _ IH];
    [apply analyses_in_place_initial | by apply analyses_in_place_exec].
Qed.

End AnalysesInPlace.

(** C7. In every state the contract can reach, the report identifiers
    announced so far are exactly 1, 2, ..., reportCount in this order and
    the analysis identifiers exactly 1, 2, ..., analysisCount: strictly
    increasing from 1, without repetition and without 0. Reports are
    stored at exactly the identifiers 1 to reportCount; an analysis is
    stored at every identifier from 1 to analysisCount, none at 0, and no
    slot beyond analysisCount holds an encrypted score or priority. From
    such a state [submitInspectionReport] stores the new report at
    reportCount + 1, and a returned risk resolution stores the new
    analysis, the encryption of the risk score and priority of its
    payload with the flag unset, at analysisCount + 1, each leaving
    every other identifier as it was. *)
Theorem C7_ids_sequential {fhe : FHEVM} (st : State) :
  reachable st →
  (report_ids (emitted st) = ids_upto (reportCount st) ∧
   analysis_ids (emitted st) = ids_upto (analysisCount st) ∧
   (∀ id, is_Some (inspectionReports st !! id) ↔ 1 ≤ id ≤ reportCount st)) ∧
  ((∀ id, 1 ≤ id ≤ analysisCount st → is_Some (riskAnalyses st !! id)) ∧
   riskAnalyses st !! 0 = None ∧
   (∀ id, analysisCount st < id →
      encryptedRiskScore (analysisAt st id) = 0 ∧
      encryptedPriorityLevel (analysisAt st id) = 0)) ∧
  (∀ n, StronglySorted N.lt (ids_upto n) ∧ NoDup (ids_upto n) ∧
        (0 ∉ ids_upto n) ∧ ∀ id, id ∈ ids_upto n ↔ 1 ≤ id ≤ n) ∧
  (∀ r h f fa l t,
     reportCount st < MAX_UINT256 →
     ∃ st', submitInspectionReport r h f fa l t st = Returned tt st' ∧
       reportCount st' = reportCount st + 1 ∧
       analysisCount st' = analysisCount st ∧
       inspectionReports st' !! (reportCount st + 1)
         = Some {| encryptedRestaurantId := r; encryptedHygieneScore := h;
                   encryptedFoodSafetyScore := f; encryptedFacilityScore := fa;
                   encryptedLocationCode := l; timestamp := t |} ∧
       reportAt st' (reportCount st + 1)
         = {| encryptedRestaurantId := r; encryptedHygieneScore := h;
              encryptedFoodSafetyScore := f; encryptedFacilityScore := fa;
              encryptedLocationCode := l; timestamp := t |} ∧
       (∀ id, id ≠ reportCount st + 1 → reportAt st' id = reportAt st id) ∧
       emitted st' = emitted st ++ [ReportSubmitted (reportCount st + 1) t]) ∧
  (∀ requestId cleartexts proof st',
     calculateRiskScore requestId cleartexts proof st = Returned tt st' →
     analysisCount st' = analysisCount st + 1 ∧
     reportCount st' = reportCount st ∧
     (∃ scores hygiene foodSafety facility r,
        abi_decode cleartexts = Some scores ∧
        scores !! 0%nat = Some hygiene ∧
        scores !! 1%nat = Some foodSafety ∧
        scores !! 2%nat = Some facility ∧
        riskScore hygiene foodSafety facility = Some r ∧
        riskAnalyses st' !! (analysisCount st + 1)
          = Some {| encryptedRiskScore := asEuint32 r;
                    encryptedPriorityLevel := asEuint32 (priorityLevel r);
                    isRevealed := false |} ∧
        analysisAt st' (analysisCount st + 1)
          = {| encryptedRiskScore := asEuint32 r;
               encryptedPriorityLevel := asEuint32 (priorityLevel r);
               isRevealed := false |}) ∧
     isRevealed (analysisAt st' (analysisCount st + 1)) = false ∧
     (∀ id, id ≠ analysisCount st + 1 → analysisAt st' id = analysisAt st id) ∧
     emitted st' = emitted st ++ [RiskIdentified (analysisCount st + 1)]).
Proof.
  intros Hreach. destruct (reachable_sequential st Hreach) as [Hrep Han Hst].
  destruct (reachable_analyses_in_place st Hreach) as [Hstored Hzero Hbeyond].
  split; [done |]. split; [done |]. split.
  { intros n. split; [apply ids_upto_sorted |]. split; [apply ids_upto_NoDup |].
    split; [rewrite elem_of_ids_upto; lia | apply elem_of_ids_upto]. }
  split.
  - intros r h f fa l t Hlt. eexists. split.
    { by apply submitInspectionReport_returns. }
    unfold reportAt. simpl. rewrite sload_insert_eq, lookup_insert_eq.
    repeat split. intros id Hne. by rewrite sload_insert_ne.
  - intros requestId cleartexts proof st' Hrun.
    apply calculateRiskScore_returned in Hrun
      as (scores & h & fs & fa & loc & r & _ & _ & Hdec & H0 & H1 & H2 & _ & Hr & _ & ->).
    unfold analysisAt. simpl. rewrite sload_insert_eq, lookup_insert_eq.
    split; [done |]. split; [done |]. split.
    { by exists scores, h, fs, fa, r. }
    repeat split. intros id Hne. by rewrite sload_insert_ne.
Qed.

Lemma C7_ids_sequential_witness :
  report_ids (emitted Scenario.two_dispatched)
    = ids_upto (reportCount Scenario.two_dispatched) ∧
  reportCount Scenario.two_dispatched = 2 ∧
  ids_upto 2 = [1; 2] ∧
  analysisCount (exec (fhe := Reference.fhevm) Scenario.two_dispatched Scenario.resolve_70)
    = analysisCount Scenario.two_dispatched + 1 ∧
  ∃ r, riskScore 70 60 60 = Some r ∧
       riskAnalyses (exec (fhe := Reference.fhevm) Scenario.two_dispatched
                       Scenario.resolve_70) !! 1
         = Some {| encryptedRiskScore := r; encryptedPriorityLevel := priorityLevel r;
                   isRevealed := false |}.
Proof.
  assert (Hreach : reachable (fhe := Reference.fhevm) Scenario.two_dispatched)
    by apply reachable_execs, reachable_initial.
  destruct (C7_ids_sequential (fhe := Reference.fhevm) Scenario.two_dispatched Hreach)
    as ((Hrep & _ & _) & _ & _ & _ & Hcalc).
  split; [exact Hrep |]. split; [vm_compute; reflexivity |].
  split; [reflexivity |].
  destruct (Hcalc 11 (Reference.abi_encode_uint32_array [70; 60; 60; 5])
              (Reference.proof_for 11) _ ltac:(vm_compute; reflexivity))
    as (Hcount & _ & (scores & h & fs & fa & r & Hdec & H0 & H1 & H2 & Hr & Hslot & _) & _).
  split; [exact Hcount |].
  exists 110. split; [reflexivity |].
  vm_compute. reflexivity.
Defined.

(** A slot beyond [analysisCount] can carry a flag and nothing else:
    here [decryptAnalysis], given a request made for the statistics of
    area 5, has set the flag of identifier 5 while one analysis exists. *)
Example flag_beyond_count :
  analysisCount MoreScenarios.flagged_beyond_count = 1 ∧
  riskAnalyses MoreScenarios.flagged_beyond_count !! 5
    = Some {| encryptedRiskScore := 0; encryptedPriorityLevel := 0; isRevealed := true |} ∧
  riskAnalyses MoreScenarios.flagged_beyond_count !! 1
    = Some {| encryptedRiskScore := 110; encryptedPriorityLevel := 2;
              isRevealed := false |}.
Proof. repeat split; vm_compute; reflexivity. Qed.
